(** * Template evolver: a shallow embedding of [scripts/template-evolver.py]

    The script is a single-pass batch job: it loads three record files,
    groups modification events and outcome events by template, joins the
    aggregates with the confidence scores, filters by fixed thresholds and
    emits version-bump proposals.

    Modelling conventions.
    - A Python [dict] keeps its keys in insertion order and the script
      iterates over its dictionaries, so a dictionary is an association list
      with [dict_get] / [dict_set]; [dict_set] overwrites in place or appends.
    - The [set] of project paths is only ever extended and measured, it is a
      [gset string].
    - Python floats are idealised as exact rationals ([Q]); the three
      thresholds are the rationals 7/10, 3/4 and 7/10.  Only [round(x, 4)]
      looks at the double behind a number.
    - The text of a file is UTF-8; a line is the string of its bytes.
    - Records read from the files are typed: a field that is present carries the
      type the script expects (strings, numbers), a field that is absent is
      [None].  [json.loads] / [json.load] are library code and are taken as
      parameters returning [None] where Python raises [JSONDecodeError].
    - Console output, the textual [rationale] and the [created_at] timestamp
      are not modelled. *)

From Stdlib Require Import Ascii String ZArith QArith Qround Qabs Lia.
From Stdlib Require Import Decimal DecimalNat DecimalString.
From stdpp Require Import base gmap strings list.

Local Open Scope string_scope.
Local Open Scope list_scope.
Local Open Scope nat_scope.

(** ** Python dictionaries (insertion ordered) *)

Section dict.
Context {K V : Type} `{EqDecision K}.

(** [d.get(k)] *)
Fixpoint dict_get (d : list (K * V)) (k : K) : option V :=
  match d with
  | [] => None
  | (k', v) :: d' => if decide (k' = k) then Some v else dict_get d' k
  end.

(** [d[k] = v]: an existing key keeps its position, a new key goes last. *)
Fixpoint dict_set (d : list (K * V)) (k : K) (v : V) : list (K * V) :=
  match d with
  | [] => [(k, v)]
  | (k', v') :: d' =>
      if decide (k' = k) then (k, v) :: d' else (k', v') :: dict_set d' k v
  end.

(** [d.get(k, dflt)] *)
Definition dict_get_default (d : list (K * V)) (k : K) (dflt : V) : V :=
  default dflt (dict_get d k).

(** [x = d[k]; mutate x] on a [defaultdict(factory)]: the entry is created
    from the factory on first access and then updated in place. *)
Definition defaultdict_update (factory : V) (d : list (K * V)) (k : K)
    (f : V → V) : list (K * V) :=
  dict_set d k (f (dict_get_default d k factory)).

Definition dict_keys (d : list (K * V)) : list K := d.*1.
End dict.

(** ** Truthiness of an optional string: [not x] is true for [None] and [""] *)

Definition truthy (x : option string) : bool :=
match x with
| Some s => negb (String.eqb s "")
| None => false
end.

(** ** Record Loader *)

(** The text of a file is UTF-8 and a line is the string of its bytes.  The
    characters [str.strip()] removes are those of [str.isspace]: U+0009-000D,
    U+001C-0020, U+0085, U+00A0, U+1680, U+2000-200A, U+2028, U+2029, U+202F,
    U+205F and U+3000.  [is_space] recognises the ones encoded on one byte,
    [is_space2] and [is_space3] those encoded on two and three bytes. *)
Definition is_space (c : ascii) : bool :=
  let n := nat_of_ascii c in
  (((9 <=? n) && (n <=? 13)) || ((28 <=? n) && (n <=? 32)))%nat.

Definition is_space2 (c1 c2 : ascii) : bool :=
  let n1 := nat_of_ascii c1 in
  let n2 := nat_of_ascii c2 in
  (n1 =? 194) && ((n2 =? 133) || (n2 =? 160)).

Definition is_space3 (c1 c2 c3 : ascii) : bool :=
  let n1 := nat_of_ascii c1 in
  let n2 := nat_of_ascii c2 in
  let n3 := nat_of_ascii c3 in
  ((n1 =? 225) && (n2 =? 154) && (n3 =? 128))
  || ((n1 =? 226) && (n2 =? 128)
      && (((128 <=? n3) && (n3 <=? 138)) || (n3 =? 168) || (n3 =? 169)
          || (n3 =? 175)))
  || ((n1 =? 226) && (n2 =? 129) && (n3 =? 159))
  || ((n1 =? 227) && (n2 =? 128) && (n3 =? 128)).

(** [not line.strip()]: the line holds whitespace characters only. *)
Fixpoint is_blank (s : string) : bool :=
  match s with
  | EmptyString => true
  | String c1 s1 =>
      if is_space c1 then is_blank s1
      else
        match s1 with
        | EmptyString => false
        | String c2 s2 =>
            if is_space2 c1 c2 then is_blank s2
            else
              match s2 with
              | EmptyString => false
              | String c3 s3 => is_space3 c1 c2 c3 && is_blank s3
              end
        end
  end.

Section loader.
Context {A : Type}.
(** [json.loads], [None] standing for [JSONDecodeError]. *)
Variable json_loads : string → option A.

(** The body of the [for line in f] loop of [load_jsonl]. *)
Definition load_line (records : list A) (line : string) : list A :=
  if negb (is_blank line) then
    match json_loads line with
    | Some r => records ++ [r]
    | None => records
    end
  else records.

(** [load_jsonl]: a file is [None] when the path does not exist, otherwise
    the list of its lines. *)
Definition load_jsonl (file : option (list string)) : list A :=
  match file with
  | None => []
  | Some lines => fold_left load_line lines []
  end.
End loader.

(** ** Input records *)

Record ModificationEvent := {
  mod_template_id : option string;
  mod_project_path : option string;
  mod_type : option string;
  mod_path : option string
}.

Record OutcomeEvent := {
  out_template_id : option string;
  out_outcome : option string
}.

Record ConfidenceEntry := {
  conf_template_id : option string;
  conf_confidence_score : option Q
}.

(** ** Modification Aggregator *)

(** The per-template accumulator of [template_mods]. *)
Record ModData := {
  projects : gset string;
  additions : list (string * nat)
}.

Definition new_ModData : ModData := {| projects := ∅; additions := [] |}.

Record AdditionStats := {
  count : nat;
  adoption_rate : Q
}.

Record Pattern := {
  total_projects : nat;
  pat_additions : list (string * AdditionStats)
}.

Definition is_addition (mod_type : option string) : bool :=
  bool_decide (mod_type = Some "directory_added")
  || bool_decide (mod_type = Some "file_added").

(** The body of the first loop of [aggregate_modifications]. *)
Definition aggregate_event (template_mods : list (string * ModData))
    (mod_ : ModificationEvent) : list (string * ModData) :=
  let path := default "" (mod_path mod_) in
  match mod_template_id mod_, mod_project_path mod_ with
  | Some template_id, Some project_path =>
      if negb (truthy (Some template_id)) || negb (truthy (Some project_path))
      then template_mods
      else
        defaultdict_update new_ModData template_mods template_id (λ data,
          {| projects := {[ project_path ]} ∪ projects data;
             additions :=
               if is_addition (mod_type mod_)
               then defaultdict_update 0 (additions data) path S
               else additions data |})
  | _, _ => template_mods
  end.

Definition group_modifications (modifications : list ModificationEvent)
    : list (string * ModData) :=
  fold_left aggregate_event modifications [].

(** [count / total_projects] *)
Definition rate (count total : nat) : Q :=
  (inject_Z (Z.of_nat count) / inject_Z (Z.of_nat total))%Q.

(** The body of the second loop of [aggregate_modifications]. *)
Definition add_pattern (patterns : list (string * Pattern))
    (item : string * ModData) : list (string * Pattern) :=
  let '(template_id, data) := item in
  let total_projects := size (projects data) in
  if (total_projects =? 0)%nat then patterns
  else
    dict_set patterns template_id
      {| total_projects := total_projects;
         pat_additions :=
           fold_left (λ adds '(path, count),
               dict_set adds path
                 {| count := count; adoption_rate := rate count total_projects |})
             (additions data) [] |}.

Definition calculate_adoption (template_mods : list (string * ModData))
    : list (string * Pattern) :=
  fold_left add_pattern template_mods [].

(** [aggregate_modifications], from the records [load_jsonl] returned for
    the modification log. *)
Definition aggregate_modifications (modifications : list ModificationEvent)
    : list (string * Pattern) :=
  calculate_adoption (group_modifications modifications).

(** ** Outcome Aggregator *)

Record OutcomeData := {
  wins : nat;
  total : nat
}.

Definition new_OutcomeData : OutcomeData := {| wins := 0; total := 0 |}.

(** The body of the first loop of [load_template_outcomes]. *)
Definition count_outcome (template_outcomes : list (string * OutcomeData))
    (outcome : OutcomeEvent) : list (string * OutcomeData) :=
  match out_template_id outcome with
  | Some template_id =>
      if negb (truthy (Some template_id)) then template_outcomes
      else
        defaultdict_update new_OutcomeData template_outcomes template_id (λ data,
          {| total := total data + 1;
             wins := if bool_decide (out_outcome outcome = Some "win")
                     then wins data + 1 else wins data |})
  | None => template_outcomes
  end.

(** The body of the second loop of [load_template_outcomes]. *)
Definition add_win_rate (win_rates : list (string * Q))
    (item : string * OutcomeData) : list (string * Q) :=
  let '(template_id, data) := item in
  dict_set win_rates template_id
    (if (0 <? total data)%nat then rate (wins data) (total data) else (1 # 2)%Q).

(** [load_template_outcomes], from the records [load_jsonl] returned for the
    outcome log. *)
Definition load_template_outcomes (outcomes : list OutcomeEvent)
    : list (string * Q) :=
  fold_left add_win_rate (fold_left count_outcome outcomes []) [].

(** ** Confidence Loader *)

(** The loop of [load_confidence_scores]; the key may be [None]. *)
Definition add_confidence (confidence_map : list (option string * Q))
    (score : ConfidenceEntry) : list (option string * Q) :=
  dict_set confidence_map (conf_template_id score)
    (default 0%Q (conf_confidence_score score)).

(** [load_confidence_scores], from the list [load_json] returned. *)
Definition load_confidence_scores (scores : list ConfidenceEntry)
    : list (option string * Q) :=
  fold_left add_confidence scores [].

(** ** Exceptions *)

Inductive exn :=
  | JSONDecodeError
  | ValueError
  | KeyError (key : string).

Inductive result (A : Type) :=
  | Ok (a : A)
  | Raise (e : exn).
Arguments Ok {A} a.
Arguments Raise {A} e.

#[global] Instance result_ret : MRet result := λ _ a, Ok a.

#[global] Instance result_bind : MBind result := λ _ _ k r,
  match r with
  | Ok a => k a
  | Raise e => Raise e
  end.

(** A [for] loop whose body may raise. *)
Fixpoint for_each {S A} (body : S → A → result S) (items : list A) (s : S)
    : result S :=
  match items with
  | [] => Ok s
  | a :: items' => s' ← body s a; for_each body items' s'
  end.

(** ** Strings: [str.split], [int], [str], [{:04d}] and [Path.suffix] *)

(** [s.split(sep)] for a one-character separator. *)
Fixpoint split_on (sep : ascii) (s : string) : list string :=
  match s with
  | EmptyString => [EmptyString]
  | String c s' =>
      if Ascii.eqb c sep then EmptyString :: split_on sep s'
      else match split_on sep s' with
           | w :: ws => String c w :: ws
           | [] => [String c EmptyString]
           end
  end.

(** [int(s)] on a string of decimal digits; anything else is [ValueError]
    (Python also accepts a sign, surrounding blanks and underscores, which the
    script never passes). *)
Definition int (s : string) : result nat :=
  match NilZero.uint_of_string s with
  | Some d => Ok (Nat.of_uint d)
  | None => Raise ValueError
  end.

(** [str(n)] *)
Definition str (n : nat) : string := NilZero.string_of_uint (Nat.to_uint n).

Fixpoint zeros (n : nat) : string :=
  match n with
  | O => EmptyString
  | S n' => String "0" (zeros n')
  end.

(** [f"{n:04d}"]: at least four digits, padded with zeros on the left. *)
Definition format_04d (n : nat) : string :=
  zeros (4 - String.length (str n)) +:+ str n.

(** [PurePosixPath(path).name]: the last component, empty and ["."]
    components being dropped by the constructor. *)
Definition path_name (path : string) : string :=
  List.last
    (List.filter (λ c, negb (String.eqb c "") && negb (String.eqb c "."))
       (split_on "/" path))
    "".

(** [name.rfind('.')] *)
Fixpoint rfind_dot (name : string) : option nat :=
  match name with
  | EmptyString => None
  | String c name' =>
      match rfind_dot name' with
      | Some i => Some (S i)
      | None => if Ascii.eqb c "." then Some 0%nat else None
      end
  end.

(** [Path(path).suffix]: [name[i:]] when [0 < i < len(name) - 1] for
    [i = name.rfind('.')], else the empty string. *)
Definition Path_suffix (path : string) : string :=
  let name := path_name path in
  match rfind_dot name with
  | Some i =>
      if ((0 <? i) && (S i <? String.length name))%nat
      then substring i (String.length name - i) name
      else ""
  | None => ""
  end.

(** ** Rounding: [round(x, 4)]

    A number of the model is the exact value the script holds as a double.
    [round(x, 4)] rounds the double itself: the quotient or the decoded
    literal is first rounded to the nearest double (53 significant bits, ties
    to even; subnormal and overflowing values are not modelled), and the exact
    value of that double is then rounded to the nearest multiple of 1/10000,
    ties to even. *)

Definition round_half_even (x : Q) : Z :=
  let f := Qfloor x in
  match (x - inject_Z f ?= 1 # 2)%Q with
  | Lt => f
  | Gt => (f + 1)%Z
  | Eq => if Z.even f then f else (f + 1)%Z
  end.

(** The exponent [e] with [2^52 <= |x| / 2^e < 2^53], for [x] other than 0. *)
Definition double_exponent (x : Q) : Z :=
  let a := Qabs x in
  let k := (Z.log2 (Qnum a) - Z.log2 (Zpos (Qden a)))%Z in
  if Qle_bool (2 ^ k) a then (k - 52)%Z else (k - 53)%Z.

(** The double nearest to [x]. *)
Definition to_double (x : Q) : Q :=
  if Qeq_bool x 0 then 0%Q
  else
    let e := double_exponent x in
    (inject_Z (round_half_even (x / 2 ^ e)) * 2 ^ e)%Q.

Definition round4 (x : Q) : Q :=
  (inject_Z (round_half_even (to_double x * 10000)) / 10000)%Q.

(** ** Proposal Generator *)

Definition ADOPTION_THRESHOLD : Q := (7 # 10)%Q.
Definition WIN_RATE_THRESHOLD : Q := (3 # 4)%Q.
Definition CONFIDENCE_THRESHOLD : Q := (7 # 10)%Q.

(** Python's [x < y] and [x >= y] on numbers. *)
Definition Qltb (x y : Q) : bool := negb (Qle_bool y x).
Definition Qgeb (x y : Q) : bool := Qle_bool y x.

Record Change := {
  change_type : string;
  change_path : string;
  change_adoption_rate : Q;
  projects_count : nat
}.

Record Metrics := {
  total_projects_analyzed : nat;
  win_rate : Q;
  confidence_score : Q;
  changes_count : nat
}.

Record Proposal := {
  proposal_id : string;
  template_id : string;
  current_version : string;
  proposed_version : string;
  changes : list Change;
  metrics : Metrics;
  status : string
}.

(** The keys of the proposal dictionary as the script builds it. *)
Definition proposal_keys : list string :=
  ["proposal_id"; "template_id"; "current_version"; "proposed_version";
   "changes"; "rationale"; "metrics"; "status"; "created_at"].

(** The dictionary appended to [qualifying_changes]. *)
Definition make_change (path : string) (stats : AdditionStats) : Change :=
  {| change_type :=
       if String.eqb (Path_suffix path) "" then "directory" else "file";
     change_path := path;
     change_adoption_rate := round4 (adoption_rate stats);
     projects_count := count stats |}.

(** The body of the inner loop over [data['additions'].items()]. *)
Definition add_qualifying (qualifying_changes : list Change)
    (item : string * AdditionStats) : list Change :=
  let '(path, stats) := item in
  if Qgeb (adoption_rate stats) ADOPTION_THRESHOLD
  then qualifying_changes ++ [make_change path stats]
  else qualifying_changes.

(** [major, minor, patch = current_version.split('.')] followed by
    [f"{major}.{int(minor) + 1}.0"]. *)
Definition bump_minor (current_version : string) : result string :=
  match split_on "." current_version with
  | [major; minor; patch] =>
      n ← int minor;
      Ok (major +:+ "." +:+ str (n + 1) +:+ ".0")
  | _ => Raise ValueError
  end.

(** [win_rates.get(template_id, 0.5)] and
    [confidence_scores.get(template_id, 0.0)], the values the generator uses. *)
Definition template_win_rate (win_rates : list (string * Q)) (tid : string) : Q :=
  dict_get_default win_rates tid (1 # 2)%Q.

Definition template_confidence (confidence_scores : list (option string * Q))
    (tid : string) : Q :=
  dict_get_default confidence_scores (Some tid) 0%Q.

(** The list built by the inner loop. *)
Definition qualifying_changes (data : Pattern) : list Change :=
  fold_left add_qualifying (pat_additions data) [].

(** The proposal dictionary (without [rationale] and [created_at]). *)
Definition make_proposal (next_id : nat) (tid : string) (data : Pattern)
    (win_rate confidence : Q) (changes : list Change) (cv pv : string)
    : Proposal :=
  {| proposal_id := "PROP-" +:+ format_04d next_id;
     template_id := tid;
     current_version := cv;
     proposed_version := pv;
     changes := changes;
     metrics :=
       {| total_projects_analyzed := total_projects data;
          win_rate := round4 win_rate;
          confidence_score := round4 confidence;
          changes_count := length changes |};
     status := "pending" |}.

(** The body of the loop of [generate_proposals]; the loop state is the pair
    of [proposals] and the counter [proposal_id]. *)
Definition propose (win_rates : list (string * Q))
    (confidence_scores : list (option string * Q))
    (st : list Proposal * nat) (item : string * Pattern)
    : result (list Proposal * nat) :=
  let '(proposals, next_id) := st in
  let '(tid, data) := item in
  let win_rate := template_win_rate win_rates tid in
  let confidence := template_confidence confidence_scores tid in
  if Qltb win_rate WIN_RATE_THRESHOLD then Ok st
  else if Qltb confidence CONFIDENCE_THRESHOLD then Ok st
  else
    let changes := qualifying_changes data in
    match changes with
    | [] => Ok st
    | _ :: _ =>
        let cv := "1.0.0" in
        pv ← bump_minor cv;
        Ok (proposals ++
              [make_proposal next_id tid data win_rate confidence changes cv pv],
            next_id + 1)
    end.

Definition generate_proposals (patterns : list (string * Pattern))
    (win_rates : list (string * Q))
    (confidence_scores : list (option string * Q)) : result (list Proposal) :=
  st ← for_each (propose win_rates confidence_scores) patterns ([], 1);
  Ok st.1.

(** ** Main program *)

(** The three input files: [None] when the path does not exist; a log is the
    list of its lines, the confidence source is its whole text. *)
Record Files := {
  MODIFICATIONS_LOG : option (list string);
  OUTCOMES_LOG : option (list string);
  CONFIDENCE_SCORES : option string
}.

Section program.
(** [json.loads] on a line of each log and [json.load] on the confidence
    source; [None] stands for [JSONDecodeError]. *)
Variable loads_modification : string → option ModificationEvent.
Variable loads_outcome : string → option OutcomeEvent.
Variable load_confidence : string → option (list ConfidenceEntry).

(** [load_json] *)
Definition load_json (file : option string) : result (list ConfidenceEntry) :=
  match file with
  | None => Ok []
  | Some text =>
      match load_confidence text with
      | Some scores => Ok scores
      | None => Raise JSONDecodeError
      end
  end.

(** The summary loop of [main] reads [proposal['changes_count']]. *)
Definition print_summary (proposals : list Proposal) : result () :=
  for_each (λ _ _,
      if bool_decide ("changes_count" ∈ proposal_keys) then Ok ()
      else Raise (KeyError "changes_count"))
    proposals ().

(** [main]: the content written to [OUTPUT_FILE], if any, and how the
    function ends. *)
Definition main (fs : Files) : option (list Proposal) * result () :=
  let patterns :=
    aggregate_modifications (load_jsonl loads_modification (MODIFICATIONS_LOG fs)) in
  let win_rates :=
    load_template_outcomes (load_jsonl loads_outcome (OUTCOMES_LOG fs)) in
  match load_json (CONFIDENCE_SCORES fs) with
  | Raise e => (None, Raise e)
  | Ok scores =>
      let confidence_scores := load_confidence_scores scores in
      match generate_proposals patterns win_rates confidence_scores with
      | Raise e => (None, Raise e)
      | Ok [] => (Some [], Ok ())
      | Ok proposals => (Some proposals, print_summary proposals)
      end
  end.

(** The [__main__] guard: exit status 1 on any exception, else 0. *)
Definition exit_status (fs : Files) : Z :=
  match (main fs).2 with
  | Ok _ => 0
  | Raise _ => 1
  end.
End program.

(** ** Specification-level views used by the theorems *)

(** The pattern entry the second loop of the aggregator builds from an
    accumulator. *)
Definition pattern_of (data : ModData) : Pattern :=
  {| total_projects := size (projects data);
     pat_additions :=
       (λ a, (a.1, {| count := a.2;
                      adoption_rate := rate a.2 (size (projects data)) |}))
         <$> additions data |}.

(** The record a line of a log contributes, if any. *)
Definition line_record {A} (json_loads : string → option A) (line : string)
    : option A :=
  if is_blank line then None else json_loads line.

(** The project an event contributes to template [t]: [None] when the event
    is discarded by the aggregator or belongs to another template. *)
Definition contributes (t : string) (e : ModificationEvent) : option string :=
  match mod_template_id e, mod_project_path e with
  | Some t', Some p =>
      if truthy (Some t') && truthy (Some p) && bool_decide (t' = t)
      then Some p else None
  | _, _ => None
  end.

(** The project paths seen for template [t], one per contributing event. *)
Definition projects_of (evs : list ModificationEvent) (t : string) : list string :=
  omap (contributes t) evs.

(** Whether an event is an addition of [path] under template [t]. *)
Definition adds (t path : string) (e : ModificationEvent) : bool :=
  bool_decide (is_Some (contributes t e)) && is_addition (mod_type e)
  && bool_decide (default "" (mod_path e) = path).

(** The number of addition events of [path] under template [t]. *)
Definition addition_events (evs : list ModificationEvent) (t path : string) : nat :=
  length (List.filter (adds t path) evs).

(** The projects that added [path] under template [t], without repetition. *)
Definition adopters (evs : list ModificationEvent) (t path : string) : list string :=
  remove_dups (omap (λ e, if adds t path e then contributes t e else None) evs).

(** Whether character [c] occurs in [s]. *)
Fixpoint contains (c : ascii) (s : string) : bool :=
  match s with
  | EmptyString => false
  | String c' s' => Ascii.eqb c' c || contains c s'
  end.

(** Whether a template of the modification profile passes every filter. *)
Definition qualifies (win_rates : list (string * Q))
    (confidence_scores : list (option string * Q))
    (item : string * Pattern) : bool :=
  Qgeb (template_win_rate win_rates item.1) WIN_RATE_THRESHOLD
  && Qgeb (template_confidence confidence_scores item.1) CONFIDENCE_THRESHOLD
  && existsb (λ a, Qgeb (adoption_rate a.2) ADOPTION_THRESHOLD)
       (pat_additions item.2).

(** The proposal built for a surviving template when the counter is [i]. *)
Definition proposal_of (win_rates : list (string * Q))
    (confidence_scores : list (option string * Q))
    (i : nat) (item : string * Pattern) : Proposal :=
  make_proposal i item.1 item.2
    (template_win_rate win_rates item.1)
    (template_confidence confidence_scores item.1)
    (qualifying_changes item.2) "1.0.0" "1.1.0".

(** Whether the aggregator keeps an event: the negation of the test
    [not template_id or not project_path]. *)
Definition kept (e : ModificationEvent) : bool :=
  truthy (mod_template_id e) && truthy (mod_project_path e).

(** The template of an event the aggregator keeps. *)
Definition event_template (e : ModificationEvent) : option string :=
  if kept e then mod_template_id e else None.

(** The elements of a list in the order of their first occurrence. *)
Fixpoint first_seen (l : list string) : list string :=
  match l with
  | [] => []
  | x :: l' => x :: filter (λ y, y ≠ x) (first_seen l')
  end.

(** The projects of the addition events of [path] under template [t], one
    per event. *)
Definition adding_projects (evs : list ModificationEvent) (t path : string)
    : list string :=
  omap (λ e, if adds t path e then contributes t e else None) evs.

(** The outcome events recorded for template [t], and the wins among them. *)
Definition outcome_total (outcomes : list OutcomeEvent) (t : string) : nat :=
  length (filter (λ o, out_template_id o = Some t) outcomes).

Definition outcome_wins (outcomes : list OutcomeEvent) (t : string) : nat :=
  length (filter (λ o, out_template_id o = Some t ∧ out_outcome o = Some "win")
            outcomes).

(** The score of the last confidence entry stored under key [k]. *)
Fixpoint last_confidence (scores : list ConfidenceEntry) (k : option string)
    : option Q :=
  match scores with
  | [] => None
  | s :: scores' =>
      match last_confidence scores' k with
      | Some q => Some q
      | None =>
          if decide (conf_template_id s = k)
          then Some (default 0%Q (conf_confidence_score s))
          else None
      end
  end.

(** ** Sample inputs used to exercise the theorems *)

Definition C3_events : list ModificationEvent :=
  [ {| mod_template_id := Some "T1"; mod_project_path := Some "/proj/a";
       mod_type := Some "file_added"; mod_path := Some "README.md" |};
    {| mod_template_id := Some "T1"; mod_project_path := Some "/proj/b";
       mod_type := Some "modified"; mod_path := None |} ].

(** The same project reports the same added file twice. *)
Definition C2_events : list ModificationEvent :=
  [ {| mod_template_id := Some "T1"; mod_project_path := Some "/proj/a";
       mod_type := Some "file_added"; mod_path := Some "README.md" |};
    {| mod_template_id := Some "T1"; mod_project_path := Some "/proj/a";
       mod_type := Some "file_added"; mod_path := Some "README.md" |} ].

(** A stand-in for [json.loads] on a modification log: a line of four fields
    separated by blanks is a record, anything else is rejected. *)
Definition sample_loads (line : string) : option ModificationEvent :=
  match split_on " " line with
  | [t; p; ty; pa] =>
      Some {| mod_template_id := Some t; mod_project_path := Some p;
              mod_type := Some ty; mod_path := Some pa |}
  | _ => None
  end.

Definition sample_outcomes : list OutcomeEvent :=
  [ {| out_template_id := Some "T1"; out_outcome := Some "win" |};
    {| out_template_id := None; out_outcome := Some "win" |} ].

Definition sample_scores : list ConfidenceEntry :=
  [ {| conf_template_id := Some "T1"; conf_confidence_score := Some (17 # 20)%Q |} ].

Definition no_files : Files :=
  {| MODIFICATIONS_LOG := None; OUTCOMES_LOG := None; CONFIDENCE_SCORES := None |}.

(** An addition event without the [path] field. *)
Definition C9_event : ModificationEvent :=
  {| mod_template_id := Some "T1"; mod_project_path := Some "/proj/a";
     mod_type := Some "file_added"; mod_path := None |}.

(** A run in which one template qualifies: one project, one addition, one
    win, confidence 0.85. *)
Definition qualifying_run : Files :=
  {| MODIFICATIONS_LOG := Some ["T1 /proj/a file_added README.md"];
     OUTCOMES_LOG := Some ["win"];
     CONFIDENCE_SCORES := Some "scores" |}.

Definition sample_loads_outcome (line : string) : option OutcomeEvent :=
  Some {| out_template_id := Some "T1"; out_outcome := Some line |}.

Definition sample_load_confidence (text : string) : option (list ConfidenceEntry) :=
  Some sample_scores.

(** [json.load] on the documents an empty confidence source can hold: the
    empty array decodes to the empty list, and the empty text is rejected, as
    Python raises [JSONDecodeError] on a document without a value.  Other
    documents are not needed by the runs below and are rejected as well. *)
Definition load_empty_array (text : string) : option (list ConfidenceEntry) :=
  if String.eqb text "[]" then Some [] else None.

(** The three files exist and hold nothing. *)
Definition empty_files : Files :=
  {| MODIFICATIONS_LOG := Some []; OUTCOMES_LOG := Some [];
     CONFIDENCE_SCORES := Some "" |}.

(** A line made of U+00A0 (bytes C2 A0) and a line feed. *)
Definition nbsp_line : string :=
  String (ascii_of_nat 194) (String (ascii_of_nat 160)
    (String (ascii_of_nat 10) EmptyString)).

(** * Properties *)

(** ** Dictionaries *)

Section dict_facts.
Context {K V : Type} `{EqDecision K}.
Implicit Types (d : list (K * V)) (k : K) (v : V).

Lemma dict_get_set_eq d k v : dict_get (dict_set d k v) k = Some v.
Proof.
  induction d as [|[k' v'] d IH]; simpl.
  - by rewrite decide_True.
  - destruct (decide (k' = k)) as [->|Hne]; simpl.
    + by rewrite decide_True.
    + by rewrite decide_False.
Qed.

Lemma dict_get_set_ne d k k' v :
  k ≠ k' → dict_get (dict_set d k v) k' = dict_get d k'.
Proof.
  intros Hne. induction d as [|[k0 v0] d IH]; simpl.
  - by rewrite decide_False.
  - destruct (decide (k0 = k)) as [->|Hk]; simpl.
    + by rewrite !decide_False.
    + by rewrite IH.
Qed.

Lemma dict_get_None d k : dict_get d k = None ↔ k ∉ d.*1.
Proof.
  induction d as [|[k' v'] d IH]; simpl.
  - split; [intros _; apply not_elem_of_nil | done].
  - rewrite not_elem_of_cons. destruct (decide (k' = k)) as [->|Hk].
    + split; [done | intros [? _]; done].
    + rewrite IH. split; [by intros ? | by intros [_ ?]].
Qed.

Lemma dict_get_Some_elem d k v : dict_get d k = Some v → (k, v) ∈ d.
Proof.
  induction d as [|[k' v'] d IH]; simpl; [done|].
  destruct (decide (k' = k)) as [->|Hk].
  - intros [= ->]. apply list_elem_of_here.
  - intros. apply list_elem_of_further. auto.
Qed.

Lemma dict_elem_get d k v : NoDup d.*1 → (k, v) ∈ d → dict_get d k = Some v.
Proof.
  induction d as [|[k' v'] d IH]; simpl.
  - intros _ Hin. by apply elem_of_nil in Hin.
  - rewrite NoDup_cons. intros [Hnotin Hnd] Hin.
    apply elem_of_cons in Hin as [[= -> ->]|Hin].
    + by rewrite decide_True.
    + rewrite decide_False; [by apply IH|].
      intros ->. apply Hnotin. apply list_elem_of_fmap. by exists (k, v).
Qed.

Lemma dict_set_keys d k v :
  (dict_set d k v).*1 = if decide (k ∈ d.*1) then d.*1 else d.*1 ++ [k].
Proof.
  induction d as [|[k' v'] d IH].
  - case_decide as Hin; [by apply elem_of_nil in Hin | done].
  - cbn [dict_set fmap list_fmap fst]. destruct (decide (k' = k)) as [->|Hk].
    + rewrite decide_True; [done | apply list_elem_of_here].
    + cbn [fmap list_fmap fst]. fold (fmap (M:=list) (@fst K V)). rewrite IH.
      destruct (decide (k ∈ d.*1)) as [Hin|Hin].
      * rewrite decide_True; [done | by apply list_elem_of_further].
      * rewrite decide_False; [done|]. rewrite not_elem_of_cons. split; [congruence | done].
Qed.

Lemma dict_set_NoDup d k v : NoDup d.*1 → NoDup (dict_set d k v).*1.
Proof.
  intros Hnd. rewrite dict_set_keys. case_decide; [done|].
  apply NoDup_app. split_and!; [done | | apply NoDup_singleton].
  intros x Hx Hk. apply list_elem_of_singleton in Hk. by subst.
Qed.

Lemma dict_set_fresh d k v : k ∉ d.*1 → dict_set d k v = d ++ [(k, v)].
Proof.
  induction d as [|[k' v'] d IH]; simpl; [done|].
  rewrite not_elem_of_cons. intros [Hk Hd].
  rewrite decide_False by done. by rewrite IH.
Qed.

Lemma dict_set_Forall (P : K * V → Prop) d k v :
  Forall P d → P (k, v) → Forall P (dict_set d k v).
Proof.
  intros Hd Hkv. induction Hd as [|[k' v'] d Hx Hd IH]; simpl.
  - by constructor.
  - case_decide; constructor; auto.
Qed.
End dict_facts.

(** ** Modification Aggregator *)

Lemma truthy_Some s : truthy (Some s) = true ↔ s ≠ "".
Proof.
  unfold truthy. destruct (String.eqb_spec s ""); simpl; split; congruence.
Qed.

Lemma contributes_Some t e p :
  contributes t e = Some p ↔
  mod_template_id e = Some t ∧ mod_project_path e = Some p ∧ t ≠ "" ∧ p ≠ "".
Proof.
  unfold contributes.
  destruct (mod_template_id e) as [t'|]; [|split; [done | by intros (? & _)]].
  destruct (mod_project_path e) as [p'|]; [|split; [done | by intros (_ & ? & _)]].
  destruct (truthy (Some t') && truthy (Some p') && bool_decide (t' = t)) eqn:Hc.
  - apply andb_prop in Hc as [[Ht Hp]%andb_prop Heq].
    apply truthy_Some in Ht, Hp. apply bool_decide_eq_true_1 in Heq. subst.
    split; [by intros [= ->] | by intros (_ & [= ->] & _)].
  - split; [done|]. intros ([= ->] & [= ->] & Ht & Hp).
    apply truthy_Some in Ht, Hp.
    rewrite Ht, Hp, bool_decide_eq_true_2 in Hc; done.
Qed.

Lemma contributes_other t t' e p :
  contributes t e = Some p → t' ≠ t → contributes t' e = None.
Proof.
  intros (Ht & _)%contributes_Some Hne.
  destruct (contributes t' e) as [p'|] eqn:H'; [|done].
  apply contributes_Some in H' as (Ht' & _). congruence.
Qed.

(** What one event does to the accumulators. *)
Lemma aggregate_event_hit tm e t p :
  contributes t e = Some p →
  aggregate_event tm e =
    defaultdict_update new_ModData tm t (λ data,
      {| projects := {[ p ]} ∪ projects data;
         additions :=
           if is_addition (mod_type e)
           then defaultdict_update 0 (additions data) (default "" (mod_path e)) S
           else additions data |}).
Proof.
  intros (Ht & Hp & Hte & Hpe)%contributes_Some. unfold aggregate_event.
  rewrite Ht, Hp. apply truthy_Some in Hte, Hpe. by rewrite Hte, Hpe.
Qed.

Lemma aggregate_event_miss tm e :
  (∀ t, contributes t e = None) → aggregate_event tm e = tm.
Proof.
  intros Hnone. unfold aggregate_event.
  destruct (mod_template_id e) as [t|] eqn:Ht; [|done].
  destruct (mod_project_path e) as [p|] eqn:Hp; [|done].
  destruct (truthy (Some t)) eqn:Htt; [|done].
  destruct (truthy (Some p)) eqn:Htp; [|done].
  specialize (Hnone t). unfold contributes in Hnone.
  rewrite Ht, Hp, Htt, Htp, bool_decide_eq_true_2 in Hnone; done.
Qed.

Lemma contributes_dec e :
  (∀ t, contributes t e = None) ∨ (∃ t p, contributes t e = Some p).
Proof.
  destruct (mod_template_id e) as [t|] eqn:Ht.
  - destruct (contributes t e) as [p|] eqn:Hc; [right; eauto|].
    left. intros t'. destruct (contributes t' e) eqn:Hc'; [|done].
    pose proof Hc' as (? & _)%contributes_Some. congruence.
  - left. intros t. unfold contributes. by rewrite Ht.
Qed.

Lemma group_modifications_snoc evs e :
  group_modifications (evs ++ [e]) = aggregate_event (group_modifications evs) e.
Proof. unfold group_modifications. by rewrite fold_left_app. Qed.

Lemma projects_of_snoc evs e t :
  projects_of (evs ++ [e]) t =
  projects_of evs t ++ match contributes t e with Some p => [p] | None => [] end.
Proof.
  unfold projects_of. rewrite omap_app. simpl. by destruct (contributes t e).
Qed.

Lemma addition_events_snoc evs e t path :
  addition_events (evs ++ [e]) t path =
  addition_events evs t path + (if adds t path e then 1 else 0).
Proof.
  unfold addition_events. rewrite List.filter_app, length_app. simpl.
  by destruct (adds t path e).
Qed.

(** The accumulators of [template_mods] are exactly the events seen so far:
    an entry exists once a contributing event has been seen, its project
    set holds the contributing projects, its counters the addition events. *)
Lemma group_modifications_lookup evs t :
  match dict_get (group_modifications evs) t with
  | None => projects_of evs t = []
  | Some data =>
      projects_of evs t ≠ [] ∧
      projects data = list_to_set (projects_of evs t) ∧
      ∀ path, dict_get_default (additions data) path 0 = addition_events evs t path
  end.
Proof.
  induction evs as [|e evs IH] using rev_ind; [done|].
  rewrite group_modifications_snoc, projects_of_snoc.
  destruct (contributes_dec e) as [Hmiss|(t0 & p & Hhit)].
  { rewrite aggregate_event_miss, Hmiss, app_nil_r by done.
    destruct (dict_get _ t) as [data|]; [|done].
    destruct IH as (? & ? & Hadd). split_and!; [done..|].
    intros path. rewrite addition_events_snoc, Hadd.
    unfold adds. rewrite Hmiss, bool_decide_eq_false_2; [simpl; lia|].
    by intros []. }
  rewrite (aggregate_event_hit _ _ _ _ Hhit). unfold defaultdict_update at 1.
  destruct (decide (t0 = t)) as [->|Hne].
  - rewrite dict_get_set_eq, Hhit. split_and!; simpl.
    + by destruct (projects_of evs t).
    + rewrite list_to_set_snoc_L. unfold dict_get_default.
      destruct (dict_get _ t) as [data|]; simpl.
      * destruct IH as (_ & -> & _). apply (comm_L (∪)).
      * rewrite IH. apply (comm_L (∪)).
    + intros path. rewrite addition_events_snoc. unfold adds.
      rewrite Hhit, bool_decide_eq_true_2 by eauto. simpl.
      assert (dict_get_default
                (additions (dict_get_default (group_modifications evs) t new_ModData))
                path 0 = addition_events evs t path) as Hold.
      { unfold dict_get_default at 2. destruct (dict_get _ t) as [data|]; simpl.
        - by destruct IH as (_ & _ & ->).
        - unfold addition_events, adds.
          assert (∀ e', contributes t e' = None ∨ e' ∉ evs) as Hno.
          { intros e'. destruct (contributes t e') as [p'|] eqn:Hc; [|by left].
            right. intros Hin.
            assert (p' ∈ projects_of evs t) as Hp'
              by (apply list_elem_of_omap; eauto).
            rewrite IH in Hp'. by apply elem_of_nil in Hp'. }
          clear -Hno. induction evs as [|e' evs IH]; [done|]. simpl.
          destruct (Hno e') as [->|Hnotin].
          + rewrite bool_decide_eq_false_2 by (by intros []). simpl.
            apply IH. intros e''. destruct (Hno e''); [by left|right].
            rewrite not_elem_of_cons in *. tauto.
          + exfalso. apply Hnotin, list_elem_of_here. }
      destruct (is_addition (mod_type e)); simpl.
      * unfold defaultdict_update.
        destruct (decide (default "" (mod_path e) = path)) as [->|Hp].
        -- rewrite bool_decide_eq_true_2 by done.
           unfold dict_get_default at 1. rewrite dict_get_set_eq. simpl.
           rewrite Hold. lia.
        -- rewrite bool_decide_eq_false_2 by done.
           unfold dict_get_default at 1. rewrite dict_get_set_ne by done.
           fold (dict_get_default
                   (additions (dict_get_default (group_modifications evs) t new_ModData))
                   path 0).
           rewrite Hold. lia.
      * rewrite Hold. lia.
  - rewrite dict_get_set_ne by done.
    rewrite (contributes_other _ _ _ _ Hhit) by done. rewrite app_nil_r.
    destruct (dict_get _ t) as [data|]; [|done].
    destruct IH as (? & ? & Hadd). split_and!; [done..|].
    intros path. rewrite addition_events_snoc, Hadd. unfold adds.
    rewrite (contributes_other _ _ _ _ Hhit) by done.
    rewrite bool_decide_eq_false_2; [simpl; lia | by intros []].
Qed.

(** A loop of [d[k] = g(item)] over items with distinct fresh keys appends
    one entry per item, in order. *)
Lemma fold_dict_set_fresh {K A B} `{EqDecision K}
    (step : list (K * B) → K * A → list (K * B)) (g : K * A → B)
    (l : list (K * A)) (acc : list (K * B)) :
  (∀ acc a, a ∈ l → step acc a = dict_set acc a.1 (g a)) →
  NoDup (acc.*1 ++ l.*1) →
  fold_left step l acc = acc ++ ((λ a, (a.1, g a)) <$> l).
Proof.
  revert acc. induction l as [|a l IH]; intros acc Hstep Hnd; simpl.
  - by rewrite app_nil_r.
  - rewrite Hstep by apply list_elem_of_here.
    assert (a.1 ∉ acc.*1) as Hfresh.
    { apply NoDup_app in Hnd as (_ & Hdisj & _). intros Hin.
      apply (Hdisj _ Hin). simpl. apply list_elem_of_here. }
    rewrite dict_set_fresh by done. rewrite IH.
    + by rewrite <- app_assoc.
    + intros acc' a' Hin. apply Hstep. by apply list_elem_of_further.
    + rewrite fmap_app, <- app_assoc. done.
Qed.

Lemma dict_get_fmap_values {K V W} `{EqDecision K} (f : V → W)
    (d : list (K * V)) (k : K) :
  dict_get ((λ kv, (kv.1, f kv.2)) <$> d) k = f <$> dict_get d k.
Proof.
  induction d as [|[k' v] d IH]; simpl; [done|]. by case_decide.
Qed.

Lemma union_singleton_non_empty (p : string) (X : gset string) : {[ p ]} ∪ X ≠ ∅.
Proof.
  intros Heq. apply (not_elem_of_empty (C:=gset string) p).
  rewrite <- Heq. apply elem_of_union_l. by apply elem_of_singleton.
Qed.

(** Keys are never repeated and every accumulator holds a project. *)
Lemma group_modifications_wf evs :
  NoDup (group_modifications evs).*1 ∧
  Forall (λ kv, NoDup (additions kv.2).*1 ∧ projects kv.2 ≠ ∅)
    (group_modifications evs).
Proof.
  induction evs as [|e evs [IHk IHv]] using rev_ind.
  - split; [apply NoDup_nil_2 | constructor].
  - rewrite group_modifications_snoc.
    destruct (contributes_dec e) as [Hmiss|(t & p & Hhit)].
    + by rewrite aggregate_event_miss.
    + rewrite (aggregate_event_hit _ _ _ _ Hhit). unfold defaultdict_update at 1 3.
      split; [by apply dict_set_NoDup|].
      apply dict_set_Forall; [done|]. simpl.
      split; [|apply union_singleton_non_empty].
      assert (NoDup (additions
                (dict_get_default (group_modifications evs) t new_ModData)).*1)
        as Hold.
      { unfold dict_get_default.
        destruct (dict_get _ t) as [data|] eqn:Hget; simpl; [|apply NoDup_nil_2].
        apply dict_get_Some_elem in Hget.
        rewrite Forall_forall in IHv. by destruct (IHv _ Hget). }
      destruct (is_addition _); [|done].
      unfold defaultdict_update. by apply dict_set_NoDup.
Qed.

Lemma size_projects_pos (X : gset string) : X ≠ ∅ → (size X =? 0)%nat = false.
Proof.
  intros Hne. apply Nat.eqb_neq. intros Hz. apply Hne.
  apply leibniz_equiv. by apply size_empty_iff.
Qed.

Lemma calculate_adoption_fmap tm :
  NoDup tm.*1 →
  Forall (λ kv, NoDup (additions kv.2).*1 ∧ projects kv.2 ≠ ∅) tm →
  calculate_adoption tm = (λ kv, (kv.1, pattern_of kv.2)) <$> tm.
Proof.
  intros Hk Hv. unfold calculate_adoption.
  rewrite (fold_dict_set_fresh add_pattern (λ kv, pattern_of kv.2)); [done| |done].
  intros acc [t data] Hin. rewrite Forall_forall in Hv.
  destruct (Hv _ Hin) as [Hnd Hne]. simpl in *.
  rewrite size_projects_pos by done. f_equal. unfold pattern_of. f_equal.
  rewrite (fold_dict_set_fresh _
             (λ a, {| count := a.2;
                      adoption_rate := rate a.2 (size (projects data)) |}));
    [done| |done].
  by intros acc' [path n] _.
Qed.

(** The patterns are the accumulators, entry by entry and in order. *)
Lemma aggregate_modifications_fmap evs :
  aggregate_modifications evs =
  (λ kv, (kv.1, pattern_of kv.2)) <$> group_modifications evs.
Proof.
  destruct (group_modifications_wf evs).
  by apply calculate_adoption_fmap.
Qed.

Lemma aggregate_modifications_lookup evs t :
  dict_get (aggregate_modifications evs) t =
  pattern_of <$> dict_get (group_modifications evs) t.
Proof. by rewrite aggregate_modifications_fmap, dict_get_fmap_values. Qed.

Lemma size_list_to_set_remove_dups (l : list string) :
  size (list_to_set (C:=gset string) l) = length (remove_dups l).
Proof.
  rewrite <- (size_list_to_set (C:=gset string) (remove_dups l))
    by apply NoDup_remove_dups.
  f_equal. apply set_eq. intros x.
  by rewrite !elem_of_list_to_set, elem_of_remove_dups.
Qed.

Lemma total_projects_lookup evs t :
  total_projects <$> dict_get (aggregate_modifications evs) t =
  if decide (projects_of evs t = []) then None
  else Some (length (remove_dups (projects_of evs t))).
Proof.
  rewrite aggregate_modifications_lookup.
  pose proof (group_modifications_lookup evs t) as Hl.
  destruct (dict_get (group_modifications evs) t) as [data|]; simpl.
  - destruct Hl as (Hne & Hp & _). rewrite decide_False by done.
    by rewrite Hp, size_list_to_set_remove_dups.
  - by rewrite decide_True.
Qed.

Lemma projects_of_app evs1 evs2 t :
  projects_of (evs1 ++ evs2) t = projects_of evs1 t ++ projects_of evs2 t.
Proof. apply omap_app. Qed.

Lemma projects_of_cons e evs t :
  projects_of (e :: evs) t =
  match contributes t e with
  | Some p => p :: projects_of evs t
  | None => projects_of evs t
  end.
Proof. unfold projects_of. simpl. by destruct (contributes t e). Qed.

(** C3: for every template, [total_projects] is the number of distinct
    project paths among the events the aggregator keeps for that template
    (no entry when there is none), and one more event from a project already
    seen for the template, wherever it occurs in the log, leaves it
    unchanged. *)
Theorem total_projects_counts_distinct_projects evs t :
  total_projects <$> dict_get (aggregate_modifications evs) t =
    (if decide (projects_of evs t = []) then None
     else Some (length (remove_dups (projects_of evs t))))
  ∧ ∀ evs1 evs2 e p,
      evs = evs1 ++ evs2 →
      contributes t e = Some p →
      p ∈ projects_of evs t →
      total_projects <$> dict_get (aggregate_modifications (evs1 ++ e :: evs2)) t =
      total_projects <$> dict_get (aggregate_modifications evs) t.
Proof.
  split; [apply total_projects_lookup|].
  intros evs1 evs2 e p -> Hc Hin. rewrite !total_projects_lookup.
  rewrite (projects_of_app evs1 (e :: evs2)), (projects_of_app evs1 evs2) in *.
  rewrite projects_of_cons, Hc.
  destruct (decide (projects_of evs1 t ++ projects_of evs2 t = [])) as [Hnil|_].
  { rewrite Hnil in Hin. by apply elem_of_nil in Hin. }
  destruct (decide (projects_of evs1 t ++ p :: projects_of evs2 t = [])) as [Hnil|_].
  { by destruct (projects_of evs1 t). }
  f_equal. rewrite <- !size_list_to_set_remove_dups. f_equal.
  apply set_eq. intros x. rewrite !elem_of_list_to_set.
  rewrite !elem_of_app, elem_of_cons. rewrite elem_of_app in Hin.
  split; [intros [?|[->|?]]; auto | intros [?|?]; auto].
Qed.

Lemma total_projects_counts_distinct_projects_witness :
  total_projects <$> dict_get (aggregate_modifications C3_events) "T1" = Some 2
  ∧ total_projects <$>
      dict_get (aggregate_modifications
                  (firstn 1 C3_events ++
                   {| mod_template_id := Some "T1"; mod_project_path := Some "/proj/a";
                      mod_type := Some "directory_added"; mod_path := Some "hooks/" |}
                   :: skipn 1 C3_events)) "T1" = Some 2.
Proof.
  destruct (total_projects_counts_distinct_projects C3_events "T1") as [H1 H2].
  split.
  - rewrite H1. vm_compute. reflexivity.
  - rewrite (H2 (firstn 1 C3_events) (skipn 1 C3_events) _ "/proj/a").
    + rewrite H1. vm_compute. reflexivity.
    + reflexivity.
    + reflexivity.
    + vm_compute. apply list_elem_of_here.
Defined.

(** C10: every accumulator of [template_mods] was created by an event that
    carries both a template and a project, so it holds at least one project:
    the guard [total_projects == 0] is never taken, every pattern entry has
    [total_projects >= 1], and each adoption rate is a quotient by that
    non-zero total. *)
Theorem patterns_have_at_least_one_project evs :
  Forall (λ kv, (∃ e p, e ∈ evs ∧ contributes kv.1 e = Some p)
                ∧ (size (projects kv.2) =? 0)%nat = false)
    (group_modifications evs)
  ∧ Forall (λ kv, (1 ≤ total_projects kv.2)%nat
                  ∧ Forall (λ a, adoption_rate a.2 =
                                 rate (count a.2) (total_projects kv.2))
                      (pat_additions kv.2))
      (aggregate_modifications evs).
Proof.
  destruct (group_modifications_wf evs) as [Hk Hv]. split.
  - rewrite Forall_forall in *. intros [t data] Hin. simpl.
    destruct (Hv _ Hin) as [_ Hne]. split; [|by apply size_projects_pos].
    pose proof (group_modifications_lookup evs t) as Hl.
    rewrite (dict_elem_get _ _ _ Hk Hin) in Hl. destruct Hl as (Hsome & _).
    destruct (projects_of evs t) as [|p l] eqn:Hp; [done|].
    assert (p ∈ projects_of evs t) as Hpin by (rewrite Hp; apply list_elem_of_here).
    apply list_elem_of_omap in Hpin as (e & ? & ?). eauto.
  - rewrite aggregate_modifications_fmap, Forall_fmap.
    eapply Forall_impl; [exact Hv|]. intros [t data] [_ Hne]. simpl.
    split.
    + apply size_projects_pos, Nat.eqb_neq in Hne. simpl in *. lia.
    + rewrite Forall_fmap. by apply Forall_true.
Qed.

(** The counter of a path is the number of addition events of that path, and
    the adoption rate is that number over [total_projects]. *)
Lemma addition_stats_lookup evs t pat path :
  dict_get (aggregate_modifications evs) t = Some pat →
  match dict_get (pat_additions pat) path with
  | Some st =>
      count st = addition_events evs t path
      ∧ adoption_rate st = rate (addition_events evs t path) (total_projects pat)
  | None => addition_events evs t path = 0
  end.
Proof.
  rewrite aggregate_modifications_lookup. intros Hget.
  pose proof (group_modifications_lookup evs t) as Hl.
  destruct (dict_get (group_modifications evs) t) as [data|]; [|done].
  injection Hget as <-. destruct Hl as (_ & _ & Hadd). specialize (Hadd path).
  unfold pattern_of. simpl.
  rewrite (dict_get_fmap_values
             (λ n, {| count := n; adoption_rate := rate n (size (projects data)) |})).
  unfold dict_get_default in Hadd.
  destruct (dict_get (additions data) path) as [n|]; simpl in *; by subst.
Qed.

(** C2 (failing input): two addition events of one path by one project give
    that path the count 2 over a single project, an adoption rate of 2,
    while one distinct project added the path. *)
Theorem duplicate_additions_inflate_adoption_rate :
  aggregate_modifications C2_events =
    [("T1", {| total_projects := 1;
               pat_additions :=
                 [("README.md", {| count := 2; adoption_rate := (2 # 1)%Q |})] |})]
  ∧ adopters C2_events "T1" "README.md" = ["/proj/a"]
  ∧ ¬ (2 # 1 <= 1)%Q
  ∧ ¬ (2 # 1 == rate (length (adopters C2_events "T1" "README.md")) 1)%Q.
Proof.
  split_and!.
  - vm_compute. reflexivity.
  - vm_compute. reflexivity.
  - intros H. vm_compute in H. by apply H.
  - intros H. vm_compute in H. discriminate H.
Qed.

(** ** Proposal Generator *)

Lemma Qltb_Qgeb x y : Qltb x y = negb (Qgeb x y).
Proof. reflexivity. Qed.

Lemma Qgeb_true x y : Qgeb x y = true ↔ (y <= x)%Q.
Proof. apply Qle_bool_iff. Qed.

(** The inner loop keeps, in order, the changes of the paths at or above the
    adoption threshold. *)
Lemma fold_add_qualifying adds acc :
  fold_left add_qualifying adds acc =
  acc ++ ((λ a, make_change a.1 a.2) <$>
            filter (λ a, Qgeb (adoption_rate a.2) ADOPTION_THRESHOLD = true) adds).
Proof.
  revert acc. induction adds as [|[path st] adds IH]; intros acc; simpl.
  - by rewrite app_nil_r.
  - rewrite IH, filter_cons. simpl.
    destruct (Qgeb (adoption_rate st) ADOPTION_THRESHOLD) eqn:Hq.
    + rewrite decide_True by done. by rewrite <- app_assoc.
    + rewrite decide_False by congruence. done.
Qed.

Lemma qualifying_changes_filter data :
  qualifying_changes data =
  (λ a, make_change a.1 a.2) <$>
    filter (λ a, Qgeb (adoption_rate a.2) ADOPTION_THRESHOLD = true)
      (pat_additions data).
Proof. unfold qualifying_changes. by rewrite fold_add_qualifying. Qed.

Lemma qualifying_changes_nil data :
  qualifying_changes data = [] ↔
  existsb (λ a, Qgeb (adoption_rate a.2) ADOPTION_THRESHOLD) (pat_additions data)
    = false.
Proof.
  rewrite qualifying_changes_filter.
  induction (pat_additions data) as [|a adds IH]; simpl; [done|].
  rewrite filter_cons. destruct (Qgeb (adoption_rate a.2) ADOPTION_THRESHOLD) eqn:Hq.
  - rewrite decide_True by done. simpl. split; discriminate.
  - rewrite decide_False by congruence. simpl. done.
Qed.

Lemma bump_minor_current : bump_minor "1.0.0" = Ok "1.1.0".
Proof. reflexivity. Qed.

(** One iteration of the generator: a surviving template appends its
    proposal and advances the counter, any other leaves the state alone. *)
Lemma propose_spec wr cs props n item :
  propose wr cs (props, n) item =
  Ok (if qualifies wr cs item
      then (props ++ [proposal_of wr cs n item], n + 1)
      else (props, n)).
Proof.
  destruct item as [tid data]. unfold propose, qualifies, proposal_of. simpl.
  rewrite !Qltb_Qgeb.
  destruct (Qgeb (template_win_rate wr tid) WIN_RATE_THRESHOLD); simpl; [|done].
  destruct (Qgeb (template_confidence cs tid) CONFIDENCE_THRESHOLD); simpl; [|done].
  destruct (qualifying_changes data) as [|c l] eqn:Hq.
  - apply qualifying_changes_nil in Hq. by rewrite Hq.
  - assert (existsb (λ a, Qgeb (adoption_rate a.2) ADOPTION_THRESHOLD)
              (pat_additions data) = true) as ->.
    { apply not_false_iff_true. rewrite <- qualifying_changes_nil. by rewrite Hq. }
    reflexivity.
Qed.

Lemma for_each_propose wr cs patterns props n :
  let survivors := filter (λ it, qualifies wr cs it = true) patterns in
  for_each (propose wr cs) patterns (props, n) =
  Ok (props ++ zip_with (proposal_of wr cs) (seq n (length survivors)) survivors,
      n + length survivors).
Proof.
  revert props n. induction patterns as [|item patterns IH]; intros props n.
  - simpl. by rewrite app_nil_r, Nat.add_0_r.
  - cbn [for_each]. rewrite propose_spec. unfold mbind, result_bind.
    cbn zeta. rewrite filter_cons.
    destruct (qualifies wr cs item) eqn:Hq.
    + rewrite decide_True by done. rewrite IH. simpl.
      rewrite <- app_assoc. simpl.
      replace (n + 1) with (S n) by lia. by rewrite Nat.add_succ_r.
    + rewrite decide_False by congruence. by rewrite IH.
Qed.

(** The generator returns one proposal per surviving template, in the order
    of the patterns and numbered from 1. *)
Lemma generate_proposals_spec patterns wr cs :
  let survivors := filter (λ it, qualifies wr cs it = true) patterns in
  generate_proposals patterns wr cs =
  Ok (zip_with (proposal_of wr cs) (seq 1 (length survivors)) survivors).
Proof.
  unfold generate_proposals. by rewrite for_each_propose.
Qed.

Lemma zip_with_proposal_of_template_id wr cs n (items : list (string * Pattern)) :
  template_id <$> zip_with (proposal_of wr cs) (seq n (length items)) items
  = items.*1.
Proof.
  revert n. induction items as [|item items IH]; intros n; simpl; [done|].
  by rewrite IH.
Qed.

Lemma zip_with_proposal_of_proposal_id wr cs n (items : list (string * Pattern)) :
  proposal_id <$> zip_with (proposal_of wr cs) (seq n (length items)) items
  = (λ i, "PROP-" +:+ format_04d i) <$> seq n (length items).
Proof.
  revert n. induction items as [|item items IH]; intros n; simpl; [done|].
  by rewrite IH.
Qed.

Lemma zip_with_proposal_of_length wr cs n (items : list (string * Pattern)) :
  length (zip_with (proposal_of wr cs) (seq n (length items)) items) = length items.
Proof.
  revert n. induction items as [|item items IH]; intros n; simpl; [done|].
  by rewrite IH.
Qed.

Lemma zip_with_proposal_of_elem wr cs n (items : list (string * Pattern)) p :
  p ∈ zip_with (proposal_of wr cs) (seq n (length items)) items →
  ∃ i item, item ∈ items ∧ p = proposal_of wr cs i item.
Proof.
  revert n. induction items as [|item items IH]; intros n; simpl.
  - intros Hin. by apply elem_of_nil in Hin.
  - intros [->|Hin]%elem_of_cons.
    + exists n, item. split; [apply list_elem_of_here | done].
    + destruct (IH _ Hin) as (i & item' & ? & ?).
      exists i, item'. split; [by apply list_elem_of_further | done].
Qed.

Lemma qualifies_true wr cs item :
  qualifies wr cs item = true ↔
  (WIN_RATE_THRESHOLD <= template_win_rate wr item.1)%Q ∧
  (CONFIDENCE_THRESHOLD <= template_confidence cs item.1)%Q ∧
  ∃ path st, (path, st) ∈ pat_additions item.2 ∧
             (ADOPTION_THRESHOLD <= adoption_rate st)%Q.
Proof.
  unfold qualifies. rewrite !andb_true_iff, !Qgeb_true, existsb_exists.
  split.
  - intros [[Hw Hc] ([path st] & Hin & Hq)]. split_and!; [done..|].
    exists path, st. apply list_elem_of_In in Hin. by apply Qgeb_true in Hq.
  - intros (Hw & Hc & path & st & Hin & Hq). split_and!; [done..|].
    exists (path, st). split; [by apply list_elem_of_In | by apply Qgeb_true].
Qed.

(** C1: the generator always returns, and a proposal is emitted for a
    template exactly when the template is in the modification profile, its
    win rate (0.5 when the outcome aggregate has no entry) is at least 0.75,
    its confidence score (0.0 when the confidence map has no entry) is at
    least 0.70, and one of its tracked paths has an adoption rate of at
    least 0.70. *)
Theorem proposal_iff_thresholds_met patterns win_rates confidence_scores :
  ∃ proposals,
    generate_proposals patterns win_rates confidence_scores = Ok proposals ∧
    ∀ t,
      (∃ p, p ∈ proposals ∧ template_id p = t) ↔
      ∃ data,
        (t, data) ∈ patterns ∧
        (WIN_RATE_THRESHOLD <= dict_get_default win_rates t (1 # 2))%Q ∧
        (CONFIDENCE_THRESHOLD <= dict_get_default confidence_scores (Some t) 0)%Q ∧
        ∃ path stats,
          (path, stats) ∈ pat_additions data ∧
          (ADOPTION_THRESHOLD <= adoption_rate stats)%Q.
Proof.
  eexists. split; [apply generate_proposals_spec|]. cbn zeta. intros t.
  set (F := filter (λ it, qualifies win_rates confidence_scores it = true) patterns).
  split.
  - intros (p & Hin & <-).
    apply zip_with_proposal_of_elem in Hin as (i & [t data] & Hitem & ->).
    apply list_elem_of_filter in Hitem as [Hq Hin].
    apply qualifies_true in Hq. exists data. by split.
  - intros (data & Hin & Hq).
    assert ((t, data) ∈ F) as HF.
    { apply list_elem_of_filter. split; [|done]. by apply qualifies_true. }
    assert (t ∈ template_id <$>
              zip_with (proposal_of win_rates confidence_scores)
                (seq 1 (length F)) F) as Ht.
    { rewrite zip_with_proposal_of_template_id.
      apply list_elem_of_fmap. by exists (t, data). }
    apply list_elem_of_fmap in Ht as (p & -> & Hp). eauto.
Qed.

(** ** Decimal strings *)

Lemma int_str n : int (str n) = Ok n.
Proof.
  unfold int, str. pose proof (Unsigned.of_to n) as Hof.
  destruct (Nat.to_uint n) eqn:E;
    try (rewrite NilZero.usu by done; by rewrite Hof).
  rewrite <- Hof. reflexivity.
Qed.

Lemma str_inj n m : str n = str m → n = m.
Proof.
  intros Heq. pose proof (int_str n) as Hn. rewrite Heq, int_str in Hn.
  by injection Hn.
Qed.

Lemma str_nonempty n : str n ≠ "".
Proof. intros Heq. pose proof (int_str n) as Hn. by rewrite Heq in Hn. Qed.

Lemma int_leading_zero s : s ≠ "" → int (String "0" s) = int s.
Proof.
  intros Hs. unfold int. destruct s as [|c s]; [done|].
  change (NilZero.uint_of_string (String "0" (String c s)))
    with (uint_of_char "0" (NilEmpty.uint_of_string (String c s))).
  change (NilZero.uint_of_string (String c s))
    with (NilEmpty.uint_of_string (String c s)).
  by destruct (NilEmpty.uint_of_string (String c s)).
Qed.

Lemma int_zeros k s : s ≠ "" → int (zeros k +:+ s) = int s.
Proof.
  intros Hs. induction k as [|k IH]; [done|].
  change (zeros (S k) +:+ s) with (String "0" (zeros k +:+ s)).
  rewrite int_leading_zero; [done|].
  destruct k; [done | discriminate].
Qed.

Lemma int_format_04d n : int (format_04d n) = Ok n.
Proof.
  unfold format_04d. rewrite int_zeros by apply str_nonempty. apply int_str.
Qed.

Lemma format_04d_inj n m : format_04d n = format_04d m → n = m.
Proof.
  intros Heq. pose proof (int_format_04d n) as Hn.
  rewrite Heq, int_format_04d in Hn. by injection Hn.
Qed.

Lemma string_length_app (s1 s2 : string) :
  String.length (s1 +:+ s2) = String.length s1 + String.length s2.
Proof. induction s1 as [|c s1 IH]; simpl; [done | by rewrite IH]. Qed.

Lemma length_zeros k : String.length (zeros k) = k.
Proof. induction k as [|k IH]; simpl; [done | by rewrite IH]. Qed.

(** Below 10000 the formatted counter has exactly four digits. *)
Lemma format_04d_length n :
  (Z.of_nat n < 10000)%Z → String.length (format_04d n) = 4.
Proof.
  intros Hn. unfold format_04d. rewrite string_length_app, length_zeros.
  assert (forallb (λ i, String.length (str i) <=? 4)%nat (seq 0 (100 * 100)) = true)
    as Hall by (vm_compute; reflexivity).
  rewrite forallb_forall in Hall.
  specialize (Hall n). rewrite Nat.leb_le in Hall.
  assert (String.length (str n) ≤ 4) by (apply Hall, in_seq; lia). lia.
Qed.

(** C6: within one run the generator numbers its proposals 1, 2, 3, ... in
    the order in which the surviving templates are iterated: the i-th emitted
    proposal (from 0) has the id "PROP-" followed by the counter i+1 padded
    with zeros to four digits, which has exactly four digits below 10000, and
    no id is used twice. *)
Theorem proposal_ids_are_sequential patterns win_rates confidence_scores :
  ∃ proposals,
    generate_proposals patterns win_rates confidence_scores = Ok proposals ∧
    template_id <$> proposals =
      (filter (λ it, qualifies win_rates confidence_scores it = true) patterns).*1 ∧
    proposal_id <$> proposals =
      (λ i, "PROP-" +:+ format_04d i) <$> seq 1 (length proposals) ∧
    (∀ i p, proposals !! i = Some p →
            proposal_id p = "PROP-" +:+ format_04d (i + 1) ∧
            ((Z.of_nat i < 9999)%Z → String.length (format_04d (i + 1)) = 4)) ∧
    NoDup (proposal_id <$> proposals).
Proof.
  eexists. split; [apply generate_proposals_spec|]. cbn zeta.
  set (F := filter (λ it, qualifies win_rates confidence_scores it = true) patterns).
  assert (proposal_id <$>
            zip_with (proposal_of win_rates confidence_scores) (seq 1 (length F)) F
          = (λ i, "PROP-" +:+ format_04d i) <$> seq 1 (length F)) as Hids
    by apply zip_with_proposal_of_proposal_id.
  split_and!.
  - apply zip_with_proposal_of_template_id.
  - by rewrite zip_with_proposal_of_length.
  - intros i p Hp. split; [|intros; apply format_04d_length; lia].
    assert ((proposal_id <$>
               zip_with (proposal_of win_rates confidence_scores)
                 (seq 1 (length F)) F) !! i = Some (proposal_id p)) as Hi
      by (by rewrite list_lookup_fmap, Hp).
    rewrite Hids, list_lookup_fmap in Hi.
    destruct (seq 1 (length F) !! i) as [k|] eqn:Hk; [|done].
    apply lookup_seq in Hk as [-> _]. simpl in Hi. injection Hi as <-.
    by rewrite (Nat.add_comm i 1).
  - rewrite Hids. apply NoDup_fmap_2; [|apply NoDup_seq].
    intros i j Heq. simpl in Heq. apply format_04d_inj.
    by injection Heq.
Qed.

(** ** Version strings *)

Lemma split_on_no_sep c s : contains c s = false → split_on c s = [s].
Proof.
  induction s as [|c' s IH]; simpl; [done|].
  intros [Hc Hs]%orb_false_elim. by rewrite Hc, IH.
Qed.

Lemma split_on_sep c a b :
  contains c a = false →
  split_on c (a +:+ String c b) = a :: split_on c b.
Proof.
  induction a as [|c' a IH]; simpl.
  - intros _. by rewrite Ascii.eqb_refl.
  - intros [Hc Ha]%orb_false_elim. by rewrite Hc, IH.
Qed.

Lemma string_of_uint_no_dot d : contains "." (NilEmpty.string_of_uint d) = false.
Proof. induction d; simpl; done. Qed.

Lemma str_no_dot n : contains "." (str n) = false.
Proof.
  unfold str, NilZero.string_of_uint.
  destruct (Nat.to_uint n) eqn:E; try done;
    rewrite <- E; apply string_of_uint_no_dot.
Qed.

Lemma bump_minor_spec major minor patch :
  contains "." major = false →
  contains "." patch = false →
  bump_minor (major +:+ "." +:+ str minor +:+ "." +:+ patch)
  = Ok (major +:+ "." +:+ str (minor + 1) +:+ ".0").
Proof.
  intros Hmajor Hpatch. unfold bump_minor.
  change ("." +:+ str minor +:+ "." +:+ patch)
    with (String "." (str minor +:+ String "." patch)).
  rewrite split_on_sep by done. rewrite split_on_sep by apply str_no_dot.
  rewrite split_on_no_sep by done. by rewrite int_str.
Qed.

(** C5: every emitted proposal carries the current version "1.0.0" and the
    proposed version "1.1.0", which is what the version bump computes from
    it; in general the bump of "major.minor.patch" keeps the major
    component, adds one to the minor component and sets the patch
    component to 0. *)
Theorem proposed_version_bumps_minor :
  (∀ patterns win_rates confidence_scores,
     ∃ proposals,
       generate_proposals patterns win_rates confidence_scores = Ok proposals ∧
       Forall (λ p, current_version p = "1.0.0" ∧
                    proposed_version p = "1.1.0" ∧
                    bump_minor (current_version p) = Ok (proposed_version p))
         proposals)
  ∧ (∀ major minor patch,
       contains "." major = false →
       contains "." patch = false →
       bump_minor (major +:+ "." +:+ str minor +:+ "." +:+ patch)
       = Ok (major +:+ "." +:+ str (minor + 1) +:+ ".0")).
Proof.
  split; [|apply bump_minor_spec].
  intros patterns wr cs. eexists. split; [apply generate_proposals_spec|].
  cbn zeta. apply Forall_forall. intros p Hin.
  apply zip_with_proposal_of_elem in Hin as (i & item & _ & ->). done.
Qed.

Lemma proposed_version_bumps_minor_witness :
  bump_minor "2.9.7" = Ok "2.10.0".
Proof.
  destruct proposed_version_bumps_minor as [_ Hbump].
  apply (Hbump "2" 9 "7"); reflexivity.
Defined.

(** ** Outcome Aggregator and Confidence Loader *)

Lemma fold_left_dict_get_None {K V A} `{EqDecision K}
    (step : list (K * V) → A → list (K * V)) (l : list A) acc (k : K) :
  (∀ acc a, a ∈ l → dict_get acc k = None → dict_get (step acc a) k = None) →
  dict_get acc k = None →
  dict_get (fold_left step l acc) k = None.
Proof.
  revert acc. induction l as [|a l IH]; intros acc Hstep Hacc; simpl; [done|].
  apply IH.
  - intros acc' a' Hin. apply Hstep. by apply list_elem_of_further.
  - apply Hstep; [apply list_elem_of_here | done].
Qed.

Lemma count_outcome_absent outcomes t :
  (∀ o, o ∈ outcomes → out_template_id o ≠ Some t) →
  dict_get (fold_left count_outcome outcomes []) t = None.
Proof.
  intros Habs. apply fold_left_dict_get_None; [|done].
  intros acc o Hin Hacc. unfold count_outcome.
  destruct (out_template_id o) as [t'|] eqn:Ht; [|done].
  destruct (negb (truthy (Some t'))); [done|].
  unfold defaultdict_update. rewrite dict_get_set_ne; [done|].
  intros ->. by apply (Habs o).
Qed.

Lemma load_template_outcomes_absent outcomes t :
  (∀ o, o ∈ outcomes → out_template_id o ≠ Some t) →
  dict_get (load_template_outcomes outcomes) t = None.
Proof.
  intros Habs. unfold load_template_outcomes.
  apply fold_left_dict_get_None; [|done].
  intros acc [t' data] Hin Hacc. simpl.
  rewrite dict_get_set_ne; [done|]. intros ->.
  apply (proj1 (dict_get_None _ t) (count_outcome_absent _ _ Habs)).
  apply list_elem_of_fmap. by exists (t, data).
Qed.

Lemma load_confidence_scores_absent scores t :
  (∀ s, s ∈ scores → conf_template_id s ≠ Some t) →
  dict_get (load_confidence_scores scores) (Some t) = None.
Proof.
  intros Habs. apply fold_left_dict_get_None; [|done].
  intros acc s Hin Hacc. unfold add_confidence.
  rewrite dict_get_set_ne; [done|]. by apply Habs.
Qed.

(** C4: the generator uses the win rate 0.5 for a template of which the
    outcome log holds no record, and the confidence score 0.0 for a template
    of which the confidence source holds no entry. *)
Theorem absent_templates_get_defaults outcomes scores t :
  ((∀ o, o ∈ outcomes → out_template_id o ≠ Some t) →
   template_win_rate (load_template_outcomes outcomes) t = (1 # 2)%Q)
  ∧ ((∀ s, s ∈ scores → conf_template_id s ≠ Some t) →
     template_confidence (load_confidence_scores scores) t = 0%Q).
Proof.
  split; intros Habs.
  - unfold template_win_rate, dict_get_default.
    by rewrite load_template_outcomes_absent.
  - unfold template_confidence, dict_get_default.
    by rewrite load_confidence_scores_absent.
Qed.

Lemma absent_templates_get_defaults_witness :
  template_win_rate (load_template_outcomes sample_outcomes) "T2" = (1 # 2)%Q
  ∧ template_confidence (load_confidence_scores sample_scores) "T2" = 0%Q.
Proof.
  destruct (absent_templates_get_defaults sample_outcomes sample_scores "T2")
    as [Hw Hc].
  split; [apply Hw | apply Hc]; intros x Hin;
    repeat (apply elem_of_cons in Hin as [->|Hin]; [discriminate|]);
    by apply elem_of_nil in Hin.
Defined.

(** ** Record Loader and main program *)

Section loader_facts.
Context {A : Type} (json_loads : string → option A).

Lemma fold_load_line lines acc :
  fold_left (load_line json_loads) lines acc = acc ++ omap (line_record json_loads) lines.
Proof.
  revert acc. induction lines as [|line lines IH]; intros acc; simpl.
  - by rewrite app_nil_r.
  - rewrite IH. unfold load_line, line_record.
    destruct (is_blank line); simpl; [done|].
    destruct (json_loads line); [by rewrite <- app_assoc | done].
Qed.

Lemma load_jsonl_omap lines :
  load_jsonl json_loads (Some lines) = omap (line_record json_loads) lines.
Proof. unfold load_jsonl. by rewrite fold_load_line. Qed.

Lemma load_jsonl_app l1 l2 :
  load_jsonl json_loads (Some (l1 ++ l2)) =
  load_jsonl json_loads (Some l1) ++ load_jsonl json_loads (Some l2).
Proof. rewrite !load_jsonl_omap. apply omap_app. Qed.

Lemma load_jsonl_bad bad :
  json_loads bad = None → load_jsonl json_loads (Some [bad]) = [].
Proof.
  intros Hbad. rewrite load_jsonl_omap. simpl. unfold line_record.
  rewrite Hbad. by destruct (is_blank bad).
Qed.

Lemma load_jsonl_good good r :
  is_blank good = false → json_loads good = Some r →
  load_jsonl json_loads (Some [good]) = [r].
Proof.
  intros Hnb Hgood. rewrite load_jsonl_omap. simpl. unfold line_record.
  by rewrite Hnb, Hgood.
Qed.
End loader_facts.

(** C7: a line that [json.loads] rejects is dropped and loading goes on: the
    records are those of the lines before it followed by those of the lines
    after it, every record of another line is still loaded, and a log made of
    one rejected line followed by one valid event yields exactly that event,
    which the aggregator then processes as if the rejected line were not
    there. *)
Theorem malformed_line_is_skipped {A} (json_loads : string → option A)
    (before after : list string) (bad : string) :
  json_loads bad = None →
  load_jsonl json_loads (Some (before ++ bad :: after)) =
    load_jsonl json_loads (Some before) ++ load_jsonl json_loads (Some after)
  ∧ (∀ line r, line ∈ before ++ after → is_blank line = false →
               json_loads line = Some r →
               r ∈ load_jsonl json_loads (Some (before ++ bad :: after)))
  ∧ (∀ good r, is_blank good = false → json_loads good = Some r →
               load_jsonl json_loads (Some [bad; good]) = [r]).
Proof.
  intros Hbad.
  assert (∀ l1 l2, load_jsonl json_loads (Some (l1 ++ bad :: l2)) =
                   load_jsonl json_loads (Some l1) ++ load_jsonl json_loads (Some l2))
    as Hskip.
  { intros l1 l2. rewrite load_jsonl_app, (load_jsonl_app _ [bad] l2).
    by rewrite load_jsonl_bad. }
  split_and!.
  - apply Hskip.
  - intros line r Hin Hnb Hr. rewrite Hskip, <- load_jsonl_app, load_jsonl_omap.
    apply list_elem_of_omap. exists line. split; [done|].
    unfold line_record. by rewrite Hnb.
  - intros good r Hnb Hr. change [bad; good] with ([] ++ bad :: [good]).
    rewrite Hskip. by apply load_jsonl_good.
Qed.

Lemma malformed_line_is_skipped_witness :
  load_jsonl sample_loads
    (Some ["{not json"; "T1 /proj/a file_added README.md"]) =
  [ {| mod_template_id := Some "T1"; mod_project_path := Some "/proj/a";
       mod_type := Some "file_added"; mod_path := Some "README.md" |} ]
  ∧ aggregate_modifications
      (load_jsonl sample_loads
         (Some ["{not json"; "T1 /proj/a file_added README.md"])) =
    [("T1", {| total_projects := 1;
               pat_additions :=
                 [("README.md", {| count := 1; adoption_rate := 1%Q |})] |})].
Proof.
  assert (sample_loads "{not json" = None) as Hbad by reflexivity.
  destruct (malformed_line_is_skipped sample_loads [] [] "{not json" Hbad)
    as (_ & _ & Hgood).
  rewrite (Hgood "T1 /proj/a file_added README.md" _ eq_refl eq_refl).
  split; [reflexivity | vm_compute; reflexivity].
Defined.

Lemma generate_proposals_no_patterns win_rates confidence_scores :
  generate_proposals [] win_rates confidence_scores = Ok [].
Proof. reflexivity. Qed.

(** C8 (counterexample): when the three files exist and are empty, the
    confidence source is not a decodable document: the run writes nothing and
    ends with exit status 1, not with the empty array and status 0. *)
Lemma empty_confidence_file_aborts_the_run :
  main sample_loads sample_loads_outcome load_empty_array empty_files
    = (None, Raise JSONDecodeError)
  ∧ exit_status sample_loads sample_loads_outcome load_empty_array empty_files
    = 1%Z
  ∧ ¬ (main sample_loads sample_loads_outcome load_empty_array empty_files
         = (Some [], Ok ())
       ∧ exit_status sample_loads sample_loads_outcome load_empty_array
           empty_files = 0%Z).
Proof.
  split_and!; [reflexivity | reflexivity |].
  intros [Hmain _]. discriminate Hmain.
Qed.

(** C8 (amended): a loader given a path that does not exist returns the
    empty dataset; when the three loaders return empty datasets, as they do
    for missing files, for logs without lines and for a confidence source
    holding the empty array, the run writes the empty array to the output
    file and ends with exit status 0; a confidence source that exists and
    that [json.load] rejects, such as a file without content, ends the run
    with [JSONDecodeError]: nothing is written and the exit status is 1. *)
Theorem missing_or_empty_inputs_write_empty_output :
  (∀ A (json_loads : string → option A), load_jsonl json_loads None = [])
  ∧ (∀ A (json_loads : string → option A), load_jsonl json_loads (Some []) = [])
  ∧ (∀ load_confidence, load_json load_confidence None = Ok [])
  ∧ (∀ loads_modification loads_outcome load_confidence fs,
       load_jsonl loads_modification (MODIFICATIONS_LOG fs) = [] →
       load_jsonl loads_outcome (OUTCOMES_LOG fs) = [] →
       load_json load_confidence (CONFIDENCE_SCORES fs) = Ok [] →
       main loads_modification loads_outcome load_confidence fs = (Some [], Ok ())
       ∧ exit_status loads_modification loads_outcome load_confidence fs = 0%Z)
  ∧ (∀ loads_modification loads_outcome load_confidence fs text,
       CONFIDENCE_SCORES fs = Some text →
       load_confidence text = None →
       main loads_modification loads_outcome load_confidence fs
         = (None, Raise JSONDecodeError)
       ∧ exit_status loads_modification loads_outcome load_confidence fs = 1%Z).
Proof.
  split_and!; try done.
  - intros lm lo lc fs Hm Ho Hc.
    assert (main lm lo lc fs = (Some [], Ok ())) as Hmain.
    { unfold main. by rewrite Hm, Ho, Hc. }
    split; [done|]. unfold exit_status. by rewrite Hmain.
  - intros lm lo lc fs text Hfile Hbad.
    assert (main lm lo lc fs = (None, Raise JSONDecodeError)) as Hmain.
    { unfold main, load_json. by rewrite Hfile, Hbad. }
    split; [done|]. unfold exit_status. by rewrite Hmain.
Qed.

Lemma missing_or_empty_inputs_write_empty_output_witness :
  (main sample_loads (λ _, None) (λ _, None) no_files = (Some [], Ok ())
   ∧ exit_status sample_loads (λ _, None) (λ _, None) no_files = 0%Z)
  ∧ (main sample_loads sample_loads_outcome load_empty_array
       {| MODIFICATIONS_LOG := Some []; OUTCOMES_LOG := None;
          CONFIDENCE_SCORES := Some "[]" |} = (Some [], Ok ())
     ∧ exit_status sample_loads sample_loads_outcome load_empty_array
         {| MODIFICATIONS_LOG := Some []; OUTCOMES_LOG := None;
            CONFIDENCE_SCORES := Some "[]" |} = 0%Z)
  ∧ (main sample_loads sample_loads_outcome load_empty_array empty_files
       = (None, Raise JSONDecodeError)
     ∧ exit_status sample_loads sample_loads_outcome load_empty_array empty_files
       = 1%Z).
Proof.
  destruct missing_or_empty_inputs_write_empty_output
    as (_ & _ & _ & Hrun & Hbad).
  split; [|split].
  - apply Hrun; reflexivity.
  - apply Hrun; reflexivity.
  - apply (Hbad sample_loads sample_loads_outcome load_empty_array empty_files "");
      reflexivity.
Defined.

Lemma zip_with_proposal_of_elem_2 wr cs n (items : list (string * Pattern)) item :
  item ∈ items →
  ∃ i, proposal_of wr cs i item
         ∈ zip_with (proposal_of wr cs) (seq n (length items)) items.
Proof.
  revert n. induction items as [|item' items IH]; intros n; simpl.
  - intros Hin. by apply elem_of_nil in Hin.
  - intros [->|Hin]%elem_of_cons.
    + exists n. apply list_elem_of_here.
    + destruct (IH (S n) Hin) as [i Hi]. exists i. by apply list_elem_of_further.
Qed.

Lemma addition_events_pos evs e t path :
  e ∈ evs → adds t path e = true → 1 ≤ addition_events evs t path.
Proof.
  intros Hin Hadds. unfold addition_events.
  assert (e ∈ List.filter (adds t path) evs) as Hf.
  { apply list_elem_of_In, filter_In. split; [by apply list_elem_of_In | done]. }
  destruct (List.filter (adds t path) evs); [by apply elem_of_nil in Hf | simpl; lia].
Qed.

(** C9: an addition event that carries a template and a project but no
    [path] field is kept and counted under the path [""]; when the adoption
    rate of that path reaches the threshold, the change built for it has the
    path [""] and the type "directory", and it is part of the proposal
    emitted for the template once the template passes the win-rate and
    confidence filters. *)
Theorem missing_path_is_counted_as_empty_path evs e t p :
  e ∈ evs →
  contributes t e = Some p →
  is_addition (mod_type e) = true →
  mod_path e = None →
  ∃ pat stats,
    dict_get (aggregate_modifications evs) t = Some pat ∧
    dict_get (pat_additions pat) "" = Some stats ∧
    count stats = addition_events evs t "" ∧
    1 ≤ count stats ∧
    ((ADOPTION_THRESHOLD <= adoption_rate stats)%Q →
       let change :=
         {| change_type := "directory"; change_path := "";
            change_adoption_rate := round4 (adoption_rate stats);
            projects_count := count stats |} in
       change ∈ qualifying_changes pat ∧
       ∀ win_rates confidence_scores,
         (WIN_RATE_THRESHOLD <= template_win_rate win_rates t)%Q →
         (CONFIDENCE_THRESHOLD <= template_confidence confidence_scores t)%Q →
         ∃ proposals pr,
           generate_proposals (aggregate_modifications evs) win_rates
             confidence_scores = Ok proposals ∧
           pr ∈ proposals ∧ template_id pr = t ∧ change ∈ changes pr).
Proof.
  intros Hin Hc Hadd Hpath.
  assert (adds t "" e = true) as Hadds.
  { unfold adds. rewrite Hc, Hadd, Hpath.
    rewrite bool_decide_eq_true_2 by eauto. reflexivity. }
  pose proof (addition_events_pos _ _ _ _ Hin Hadds) as Hpos.
  assert (p ∈ projects_of evs t) as Hp by (apply list_elem_of_omap; eauto).
  pose proof (total_projects_lookup evs t) as Htot.
  destruct (dict_get (aggregate_modifications evs) t) as [pat|] eqn:Hpat; last first.
  { simpl in Htot. case_decide as Hnil; [|done].
    rewrite Hnil in Hp. by apply elem_of_nil in Hp. }
  pose proof (addition_stats_lookup evs t pat "" Hpat) as Hst.
  destruct (dict_get (pat_additions pat) "") as [stats|] eqn:Hstats; [|lia].
  destruct Hst as [Hcount Hrate].
  exists pat, stats. split_and!; [done | done | done | lia |].
  intros Hq. cbn zeta.
  assert (make_change "" stats ∈ qualifying_changes pat) as Hchange.
  { rewrite qualifying_changes_filter.
    apply (list_elem_of_fmap_2 (λ a, make_change a.1 a.2) _ ("", stats)).
    apply list_elem_of_filter. split; [by apply Qgeb_true|].
    by apply dict_get_Some_elem. }
  split; [exact Hchange|].
  intros wr cs Hw Hcf. eexists. 
  set (F := filter (λ it, qualifies wr cs it = true) (aggregate_modifications evs)).
  assert ((t, pat) ∈ F) as HF.
  { apply list_elem_of_filter. split; [|by apply dict_get_Some_elem].
    apply qualifies_true. split_and!; [done..|].
    exists "", stats. split; [by apply dict_get_Some_elem | done]. }
  destruct (zip_with_proposal_of_elem_2 wr cs 1 F _ HF) as [i Hi].
  exists (proposal_of wr cs i (t, pat)).
  split_and!; [apply generate_proposals_spec | exact Hi | done | exact Hchange].
Qed.

Lemma missing_path_is_counted_as_empty_path_witness :
  ∃ pat stats,
    dict_get (aggregate_modifications [C9_event]) "T1" = Some pat ∧
    dict_get (pat_additions pat) "" = Some stats ∧
    count stats = 1 ∧
    {| change_type := "directory"; change_path := "";
       change_adoption_rate := round4 (adoption_rate stats);
       projects_count := count stats |} ∈ qualifying_changes pat.
Proof.
  destruct (missing_path_is_counted_as_empty_path [C9_event] C9_event "T1" "/proj/a")
    as (pat & stats & Hpat & Hstats & Hcount & _ & Hchange).
  - apply list_elem_of_here.
  - reflexivity.
  - reflexivity.
  - reflexivity.
  - exists pat, stats. split_and!; [done | done | by rewrite Hcount |].
    apply Hchange.
    assert (pat = {| total_projects := 1;
                     pat_additions :=
                       [("", {| count := 1; adoption_rate := 1%Q |})] |}) as ->.
    { assert (dict_get (aggregate_modifications [C9_event]) "T1" =
              Some {| total_projects := 1;
                      pat_additions :=
                        [("", {| count := 1; adoption_rate := 1%Q |})] |}) as Heq
        by (vm_compute; reflexivity).
      rewrite Heq in Hpat. by injection Hpat. }
    injection Hstats as <-. simpl. unfold ADOPTION_THRESHOLD. 
    apply Qle_bool_iff. reflexivity.
Defined.

(** The summary loop looks up a key the proposal dictionary does not have:
    once a proposal has been written, [main] ends with [KeyError]. *)
Lemma print_summary_raises p proposals :
  print_summary (p :: proposals) = Raise (KeyError "changes_count").
Proof. reflexivity. Qed.

(** * Further properties of the pipeline *)

(** ** Events the aggregator discards, and the order of the patterns *)

Lemma kept_true e :
  kept e = true ↔ ∃ t p, contributes t e = Some p.
Proof.
  unfold kept. split.
  - intros [Ht Hp]%andb_prop.
    destruct (mod_template_id e) as [t|] eqn:Et; [|done].
    destruct (mod_project_path e) as [p|] eqn:Ep; [|done].
    exists t, p. apply contributes_Some. by rewrite <- !truthy_Some.
  - intros (t & p & (Ht & Hp & Hte & Hpe)%contributes_Some).
    rewrite Ht, Hp. apply andb_true_intro. by rewrite !truthy_Some.
Qed.

Lemma kept_false e : kept e = false → ∀ t, contributes t e = None.
Proof.
  intros Hk t. destruct (contributes t e) as [p|] eqn:Hc; [|done].
  assert (kept e = true) by (apply kept_true; eauto). congruence.
Qed.

Lemma event_template_Some e t :
  event_template e = Some t ↔ ∃ p, contributes t e = Some p.
Proof.
  unfold event_template. split.
  - destruct (kept e) eqn:Hk; [|done]. intros Ht.
    apply kept_true in Hk as (t' & p & Hc). exists p.
    pose proof Hc as (Ht' & _)%contributes_Some. congruence.
  - intros [p Hc]. rewrite (proj2 (kept_true e)) by eauto.
    by apply contributes_Some in Hc as (? & _).
Qed.

Lemma fold_aggregate_event_kept evs tm :
  fold_left aggregate_event evs tm =
  fold_left aggregate_event (filter (λ e, kept e = true) evs) tm.
Proof.
  revert tm. induction evs as [|e evs IH]; intros tm; [done|].
  rewrite filter_cons. destruct (kept e) eqn:Hk.
  - rewrite decide_True by done. simpl. apply IH.
  - rewrite decide_False by congruence. simpl.
    rewrite aggregate_event_miss by (by apply kept_false). apply IH.
Qed.

(** X1: an event whose [template_id] or [project_path] is missing or empty
    has no effect on the result of the aggregator, whatever its type and
    path and wherever it stands in the log. *)
Theorem discarded_events_have_no_effect evs1 evs2 e :
  kept e = false →
  aggregate_modifications (evs1 ++ e :: evs2) =
  aggregate_modifications (evs1 ++ evs2).
Proof.
  intros Hk. unfold aggregate_modifications, group_modifications. f_equal.
  rewrite fold_aggregate_event_kept, (fold_aggregate_event_kept (evs1 ++ evs2)).
  rewrite !filter_app, filter_cons. by rewrite decide_False by congruence.
Qed.

Lemma discarded_events_have_no_effect_witness :
  aggregate_modifications
    (C3_events ++
     {| mod_template_id := Some ""; mod_project_path := Some "/proj/z";
        mod_type := Some "file_added"; mod_path := Some "LICENSE" |} :: C2_events)
  = aggregate_modifications (C3_events ++ C2_events).
Proof.
  apply discarded_events_have_no_effect. reflexivity.
Defined.

Lemma first_seen_snoc l x :
  first_seen (l ++ [x]) =
  if decide (x ∈ l) then first_seen l else first_seen l ++ [x].
Proof.
  induction l as [|y l IH].
  - destruct (decide (x ∈ [])) as [Hin|_]; [by apply elem_of_nil in Hin | done].
  - cbn [app first_seen]. rewrite IH.
    destruct (decide (x ∈ l)) as [Hin|Hnin].
    + destruct (decide (x ∈ y :: l)) as [_|Hn]; [done|].
      exfalso. apply Hn. by apply list_elem_of_further.
    + rewrite filter_app, filter_cons.
      destruct (decide (x = y)) as [->|Hne].
      * rewrite decide_False by (by intros ?). rewrite filter_nil, app_nil_r.
        destruct (decide (y ∈ y :: l)) as [_|Hn]; [done|].
        exfalso. apply Hn, list_elem_of_here.
      * rewrite decide_True by done. rewrite filter_nil.
        destruct (decide (x ∈ y :: l)) as [Hin|_]; [|done].
        apply elem_of_cons in Hin as [?|?]; done.
Qed.

Lemma elem_of_first_seen l x : x ∈ first_seen l ↔ x ∈ l.
Proof.
  induction l as [|y l IH]; simpl; [done|].
  rewrite !elem_of_cons, list_elem_of_filter, IH.
  destruct (decide (x = y)); [by split; left | tauto].
Qed.

Lemma group_modifications_keys evs :
  (group_modifications evs).*1 = first_seen (omap event_template evs).
Proof.
  induction evs as [|e evs IH] using rev_ind; [done|].
  rewrite group_modifications_snoc, omap_app.
  destruct (contributes_dec e) as [Hmiss|(t & p & Hhit)].
  - rewrite aggregate_event_miss by done.
    assert (event_template e = None) as Hnone.
    { destruct (event_template e) as [t|] eqn:Ht; [|done].
      apply event_template_Some in Ht as [p Hc]. by rewrite Hmiss in Hc. }
    cbn [omap list_omap]. by rewrite Hnone, app_nil_r.
  - rewrite (aggregate_event_hit _ _ _ _ Hhit). unfold defaultdict_update at 1.
    rewrite dict_set_keys, IH.
    cbn [omap list_omap]. rewrite (proj2 (event_template_Some e t)) by eauto.
    rewrite first_seen_snoc.
    destruct (decide (t ∈ omap event_template evs)) as [Hin|Hnin].
    + rewrite decide_True; [done | by apply elem_of_first_seen].
    + rewrite decide_False; [done | by rewrite elem_of_first_seen].
Qed.

(** X2: the patterns are listed, one per template and without repetition,
    in the order in which the templates first appear among the events the
    aggregator keeps; this is the order in which the generator visits them. *)
Theorem patterns_follow_first_appearance evs :
  (aggregate_modifications evs).*1 = first_seen (omap event_template evs)
  ∧ NoDup (aggregate_modifications evs).*1.
Proof.
  assert ((aggregate_modifications evs).*1 = (group_modifications evs).*1) as Hk.
  { rewrite aggregate_modifications_fmap, <- list_fmap_compose.
    by apply list_fmap_ext. }
  rewrite Hk. split; [apply group_modifications_keys|].
  apply group_modifications_wf.
Qed.

(** ** What the adoption rate measures *)

Lemma additions_positive evs :
  Forall (λ kv, Forall (λ a, 1 ≤ a.2) (additions kv.2)) (group_modifications evs).
Proof.
  induction evs as [|e evs IH] using rev_ind; [constructor|].
  rewrite group_modifications_snoc.
  destruct (contributes_dec e) as [Hmiss|(t & p & Hhit)].
  - by rewrite aggregate_event_miss.
  - rewrite (aggregate_event_hit _ _ _ _ Hhit). unfold defaultdict_update at 1.
    apply dict_set_Forall; [done|]. simpl.
    assert (Forall (λ a, 1 ≤ a.2)
              (additions (dict_get_default (group_modifications evs) t new_ModData)))
      as Hold.
    { unfold dict_get_default.
      destruct (dict_get _ t) as [data|] eqn:Hget; simpl; [|constructor].
      apply dict_get_Some_elem in Hget. rewrite Forall_forall in IH.
      apply (IH _ Hget). }
    destruct (is_addition _); [|done].
    unfold defaultdict_update. apply dict_set_Forall; [done | simpl; lia].
Qed.

Lemma rate_pos c t : 1 ≤ c → 1 ≤ t → (0 < rate c t)%Q.
Proof.
  intros Hc Ht. destruct t as [|t]; [lia|].
  unfold rate, Qdiv, Qmult, Qinv, Qlt. simpl. lia.
Qed.

Lemma rate_le_1 c t : c ≤ t → 1 ≤ t → (rate c t <= 1)%Q.
Proof.
  intros Hc Ht. destruct t as [|t]; [lia|].
  unfold rate, Qdiv, Qmult, Qinv, Qle. simpl. lia.
Qed.

(** X3: for a tracked path the stored count is the number of addition events
    of that path under the template, events of one project counted as often
    as they occur; it is at least 1, the adoption rate is that count over
    [total_projects] and is positive; and a path is tracked exactly when the
    log holds an addition event of it. *)
Theorem adoption_rate_counts_addition_events evs t pat path :
  dict_get (aggregate_modifications evs) t = Some pat →
  (is_Some (dict_get (pat_additions pat) path) ↔ 1 ≤ addition_events evs t path)
  ∧ ∀ stats,
      dict_get (pat_additions pat) path = Some stats →
      count stats = addition_events evs t path ∧
      1 ≤ count stats ∧
      adoption_rate stats = rate (count stats) (total_projects pat) ∧
      (0 < adoption_rate stats)%Q.
Proof.
  intros Hpat.
  assert (1 ≤ total_projects pat) as Htot.
  { pose proof (total_projects_lookup evs t) as Hl. rewrite Hpat in Hl.
    simpl in Hl. case_decide as Hnil; [done|]. injection Hl as ->.
    destruct (projects_of evs t) as [|p l] eqn:Hp; [done|].
    assert (p ∈ remove_dups (p :: l))
      by (apply elem_of_remove_dups, list_elem_of_here).
    destruct (remove_dups (p :: l)); [by apply elem_of_nil in H | simpl; lia]. }
  assert (∀ stats, dict_get (pat_additions pat) path = Some stats →
                   1 ≤ count stats) as Hpos.
  { intros stats Hst. rewrite aggregate_modifications_lookup in Hpat.
    destruct (dict_get (group_modifications evs) t) as [data|] eqn:Hd; [|done].
    injection Hpat as <-. unfold pattern_of in Hst. simpl in Hst.
    rewrite (dict_get_fmap_values
               (λ n, {| count := n;
                        adoption_rate := rate n (size (projects data)) |})) in Hst.
    destruct (dict_get (additions data) path) as [n|] eqn:Hn; [|done].
    injection Hst as <-. simpl.
    pose proof (additions_positive evs) as Hall. rewrite Forall_forall in Hall.
    specialize (Hall _ (dict_get_Some_elem _ _ _ Hd)). simpl in Hall.
    rewrite Forall_forall in Hall.
    apply (Hall _ (dict_get_Some_elem _ _ _ Hn)). }
  pose proof (addition_stats_lookup evs t pat path Hpat) as Hst.
  destruct (dict_get (pat_additions pat) path) as [stats|] eqn:Hget.
  - destruct Hst as [Hc Hr]. specialize (Hpos stats eq_refl). split.
    + split; [intros _; lia | by eauto].
    + intros ? [= <-]. rewrite Hr, <- Hc. split_and!; [done..|].
      by apply rate_pos.
  - split; [|done]. split; [by intros [? ?] | lia].
Qed.

Lemma adoption_rate_counts_addition_events_witness :
  ∃ stats,
    dict_get [("README.md", {| count := 2; adoption_rate := (2 # 1)%Q |})] "README.md"
      = Some stats
    ∧ count stats = addition_events C2_events "T1" "README.md"
    ∧ (0 < adoption_rate stats)%Q.
Proof.
  destruct (adoption_rate_counts_addition_events C2_events "T1"
              {| total_projects := 1;
                 pat_additions :=
                   [("README.md", {| count := 2; adoption_rate := (2 # 1)%Q |})] |}
              "README.md") as [_ Hst].
  - vm_compute. reflexivity.
  - eexists. split; [reflexivity|].
    destruct (Hst _ eq_refl) as (Hc & _ & _ & Hr). by split.
Defined.

Lemma remove_dups_NoDup (l : list string) : NoDup l → remove_dups l = l.
Proof.
  induction 1 as [|x l Hx Hl IH]; simpl; [done|].
  destruct (decide_rel (∈) x l); [done|]. by rewrite IH.
Qed.

Lemma addition_events_adding_projects evs t path :
  addition_events evs t path = length (adding_projects evs t path).
Proof.
  unfold addition_events, adding_projects.
  induction evs as [|e evs IH]; simpl; [done|].
  destruct (adds t path e) eqn:Ha; [|done].
  assert (is_Some (contributes t e)) as [p ->].
  { unfold adds in Ha. apply andb_prop in Ha as [[Hc _]%andb_prop _].
    by apply bool_decide_eq_true_1 in Hc. }
  simpl. by rewrite IH.
Qed.

Lemma adopters_are_projects evs t path p :
  p ∈ adopters evs t path → p ∈ projects_of evs t.
Proof.
  unfold adopters, projects_of. rewrite elem_of_remove_dups, !list_elem_of_omap.
  intros (e & Hin & He). exists e. split; [done|]. by destruct (adds t path e).
Qed.

(** X4: when no project reports the addition of a path more than once, the
    stored count is the number of distinct projects that added the path, the
    adoption rate is that number over [total_projects], and it lies in
    (0, 1]. *)
Theorem adoption_rate_without_repeated_additions evs t pat path stats :
  NoDup (adding_projects evs t path) →
  dict_get (aggregate_modifications evs) t = Some pat →
  dict_get (pat_additions pat) path = Some stats →
  count stats = length (adopters evs t path) ∧
  adoption_rate stats = rate (length (adopters evs t path)) (total_projects pat) ∧
  (0 < adoption_rate stats)%Q ∧ (adoption_rate stats <= 1)%Q.
Proof.
  intros Hnd Hpat Hst.
  pose proof (addition_stats_lookup evs t pat path Hpat) as Hl.
  rewrite Hst in Hl. destruct Hl as [Hc Hr].
  assert (adopters evs t path = adding_projects evs t path) as Had
    by (by apply remove_dups_NoDup).
  rewrite addition_events_adding_projects, <- Had in Hc, Hr.
  assert (total_projects pat = length (remove_dups (projects_of evs t))) as Htot.
  { pose proof (total_projects_lookup evs t) as Hl. rewrite Hpat in Hl.
    simpl in Hl. case_decide; [done|]. by injection Hl. }
  assert (length (adopters evs t path) ≤ total_projects pat) as Hle.
  { rewrite Htot. apply submseteq_length, NoDup_submseteq.
    - apply NoDup_remove_dups.
    - intros p Hp. by apply elem_of_remove_dups, (adopters_are_projects _ _ path). }
  assert (1 ≤ length (adopters evs t path)) as Hpos.
  { rewrite <- Hc.
    pose proof (additions_positive evs) as Hall. rewrite Forall_forall in Hall.
    rewrite aggregate_modifications_lookup in Hpat.
    destruct (dict_get (group_modifications evs) t) as [data|] eqn:Hd; [|done].
    injection Hpat as <-. unfold pattern_of in Hst. simpl in Hst.
    rewrite (dict_get_fmap_values
               (λ n, {| count := n;
                        adoption_rate := rate n (size (projects data)) |})) in Hst.
    destruct (dict_get (additions data) path) as [n|] eqn:Hn; [|done].
    injection Hst as <-. simpl.
    specialize (Hall _ (dict_get_Some_elem _ _ _ Hd)). simpl in Hall.
    rewrite Forall_forall in Hall.
    apply (Hall _ (dict_get_Some_elem _ _ _ Hn)). }
  rewrite Hr. split_and!; [done | done | apply rate_pos; lia | apply rate_le_1; lia].
Qed.

Lemma adoption_rate_without_repeated_additions_witness :
  ∃ pat stats,
    dict_get (aggregate_modifications C3_events) "T1" = Some pat ∧
    dict_get (pat_additions pat) "README.md" = Some stats ∧
    count stats = length (adopters C3_events "T1" "README.md") ∧
    (adoption_rate stats <= 1)%Q.
Proof.
  exists {| total_projects := 2;
            pat_additions :=
              [("README.md", {| count := 1; adoption_rate := (1 # 2)%Q |})] |},
         {| count := 1; adoption_rate := (1 # 2)%Q |}.
  assert (dict_get (aggregate_modifications C3_events) "T1" =
          Some {| total_projects := 2;
                  pat_additions :=
                    [("README.md", {| count := 1; adoption_rate := (1 # 2)%Q |})] |})
    as Hpat by (vm_compute; reflexivity).
  assert (NoDup (adding_projects C3_events "T1" "README.md")) as Hnd
    by (vm_compute; apply NoDup_singleton).
  destruct (adoption_rate_without_repeated_additions C3_events "T1" _ "README.md"
              {| count := 1; adoption_rate := (1 # 2)%Q |} Hnd Hpat eq_refl)
    as (Hc & _ & _ & Hle).
  by split_and!.
Defined.

(** ** Win rates and confidence scores *)

Lemma outcome_total_snoc outcomes o t :
  outcome_total (outcomes ++ [o]) t =
  outcome_total outcomes t + (if decide (out_template_id o = Some t) then 1 else 0).
Proof.
  unfold outcome_total. rewrite filter_app, length_app, filter_cons.
  by case_decide.
Qed.

Lemma outcome_wins_snoc outcomes o t :
  outcome_wins (outcomes ++ [o]) t =
  outcome_wins outcomes t +
  (if decide (out_template_id o = Some t ∧ out_outcome o = Some "win")
   then 1 else 0).
Proof.
  unfold outcome_wins. rewrite filter_app, length_app, filter_cons.
  by case_decide.
Qed.

Lemma outcome_wins_le_total outcomes t :
  outcome_wins outcomes t ≤ outcome_total outcomes t.
Proof.
  induction outcomes as [|o outcomes IH] using rev_ind; [done|].
  rewrite outcome_wins_snoc, outcome_total_snoc.
  repeat case_decide; try lia. tauto.
Qed.

(** The counters of [template_outcomes] are the events seen so far. *)
Lemma count_outcome_lookup outcomes t :
  match dict_get (fold_left count_outcome outcomes []) t with
  | None => t = "" ∨ outcome_total outcomes t = 0
  | Some data =>
      t ≠ "" ∧ 1 ≤ total data ∧
      total data = outcome_total outcomes t ∧
      wins data = outcome_wins outcomes t
  end.
Proof.
  induction outcomes as [|o outcomes IH] using rev_ind; [by right|].
  rewrite fold_left_app, outcome_total_snoc, outcome_wins_snoc. simpl.
  unfold count_outcome at 1.
  destruct (out_template_id o) as [t'|] eqn:Ht.
  - destruct (truthy (Some t')) eqn:Htt; simpl.
    + apply truthy_Some in Htt. unfold defaultdict_update.
      destruct (decide (t' = t)) as [->|Hne].
      * rewrite dict_get_set_eq, decide_True by done. simpl.
        unfold dict_get_default.
        destruct (dict_get _ t) as [data|]; simpl.
        -- destruct IH as (_ & Hpos & Htot & Hwin).
           split_and!; [done | lia | lia |].
           case_bool_decide as Hw.
           ++ rewrite decide_True by done. lia.
           ++ rewrite decide_False by (by intros [_ ?]). lia.
        -- destruct IH as [?|Hz]; [done|].
           assert (outcome_wins outcomes t = 0) as Hw0
             by (pose proof (outcome_wins_le_total outcomes t); lia).
           split_and!; [done | lia | lia |].
           case_bool_decide as Hw.
           ++ rewrite decide_True by done. lia.
           ++ rewrite decide_False by (by intros [_ ?]). lia.
      * rewrite dict_get_set_ne by done.
        rewrite !decide_False by (intuition congruence).
        rewrite !Nat.add_0_r. apply IH.
    + apply not_true_iff_false in Htt. rewrite truthy_Some in Htt.
      assert (t' = "") as -> by (by destruct (decide (t' = ""))).
      destruct (decide (Some "" = Some t)) as [[= <-]|Hne].
      * destruct (dict_get _ "") as [data|]; [by destruct IH | by left].
      * rewrite decide_False by (by intros [? _]). rewrite !Nat.add_0_r. apply IH.
  - rewrite !decide_False by (by intros ?). rewrite !Nat.add_0_r. apply IH.
Qed.

Lemma count_outcome_NoDup outcomes :
  NoDup (fold_left count_outcome outcomes []).*1.
Proof.
  induction outcomes as [|o outcomes IH] using rev_ind; [apply NoDup_nil_2|].
  rewrite fold_left_app. simpl. unfold count_outcome at 1.
  destruct (out_template_id o); [|done].
  destruct (negb _); [done|]. by apply dict_set_NoDup.
Qed.

Lemma rate_nonneg c t : 1 ≤ t → (0 <= rate c t)%Q.
Proof.
  intros Ht. destruct t as [|t]; [lia|].
  unfold rate, Qdiv, Qmult, Qinv, Qle. simpl. lia.
Qed.

(** X5: the win rate recorded for a template is the number of its outcome
    events whose outcome is "win" over the number of its outcome events; a
    template without outcome events, and the empty template id, have no
    entry (so the neutral value stored by the aggregator itself is never
    used); every recorded win rate lies in [0, 1]. *)
Theorem win_rate_is_wins_over_total outcomes t :
  dict_get (load_template_outcomes outcomes) t =
    (if decide (t = "" ∨ outcome_total outcomes t = 0) then None
     else Some (rate (outcome_wins outcomes t) (outcome_total outcomes t)))
  ∧ ∀ q, dict_get (load_template_outcomes outcomes) t = Some q →
         (0 <= q)%Q ∧ (q <= 1)%Q.
Proof.
  assert (dict_get (load_template_outcomes outcomes) t =
          if decide (t = "" ∨ outcome_total outcomes t = 0) then None
          else Some (rate (outcome_wins outcomes t) (outcome_total outcomes t)))
    as Hget.
  { unfold load_template_outcomes.
    rewrite (fold_dict_set_fresh add_win_rate
               (λ kv, if 0 <? total kv.2 then rate (wins kv.2) (total kv.2)
                      else (1 # 2)%Q));
      [| by intros acc [t' data] _ | apply count_outcome_NoDup].
    simpl.
    rewrite (dict_get_fmap_values
               (λ data, if 0 <? total data then rate (wins data) (total data)
                        else (1 # 2)%Q)).
    pose proof (count_outcome_lookup outcomes t) as Hl.
    destruct (dict_get (fold_left count_outcome outcomes []) t) as [data|]; simpl.
    - destruct Hl as (Hne & Hpos & Htot & Hwin).
      rewrite decide_False by (intros [?|?]; [done | lia]).
      rewrite (proj2 (Nat.ltb_lt 0 (total data))) by lia.
      by rewrite Htot, Hwin.
    - by rewrite decide_True. }
  split; [done|]. intros q Hq. rewrite Hget in Hq.
  case_decide as Hc; [done|]. injection Hq as <-.
  pose proof (outcome_wins_le_total outcomes t).
  split; [apply rate_nonneg | apply rate_le_1]; lia.
Qed.

Lemma win_rate_is_wins_over_total_witness :
  dict_get (load_template_outcomes sample_outcomes) "T1" = Some 1%Q
  ∧ (1 <= 1)%Q.
Proof.
  destruct (win_rate_is_wins_over_total sample_outcomes "T1") as [Hget Hb].
  assert (dict_get (load_template_outcomes sample_outcomes) "T1" = Some 1%Q) as H1
    by (vm_compute; reflexivity).
  split; [done|]. by destruct (Hb _ H1).
Defined.

Lemma last_confidence_snoc scores s k :
  last_confidence (scores ++ [s]) k =
  if decide (conf_template_id s = k)
  then Some (default 0%Q (conf_confidence_score s))
  else last_confidence scores k.
Proof.
  induction scores as [|s' scores IH]; simpl.
  - done.
  - rewrite IH. case_decide; [done|].
    by destruct (last_confidence scores k).
Qed.

(** X6: the confidence map holds, under every key, the score of the last
    entry of the source with that template id, 0.0 standing for an entry
    without [confidence_score]; earlier entries of the same template are
    overwritten, and entries without a template id are stored under the key
    [None], which the generator never reads. *)
Theorem confidence_map_keeps_last_entry scores k :
  dict_get (load_confidence_scores scores) k = last_confidence scores k.
Proof.
  induction scores as [|s scores IH] using rev_ind; [done|].
  unfold load_confidence_scores. rewrite fold_left_app, last_confidence_snoc.
  simpl. unfold add_confidence at 1. case_decide as Hk.
  - subst k. apply dict_get_set_eq.
  - rewrite dict_get_set_ne by done. apply IH.
Qed.

(** ** Shape of the emitted proposals *)

(** X7: every emitted proposal belongs to a template of the patterns, is
    pending, and has at least one change; its changes are, one for one and
    in the same order, the tracked paths of that template whose adoption
    rate is at least the threshold, each change carrying its path and that
    path's count, with the type "directory" or "file"; [changes_count] is
    the number of changes and [total_projects_analyzed] the template's
    [total_projects]. *)
Theorem emitted_proposals_are_well_formed patterns win_rates confidence_scores :
  ∃ proposals,
    generate_proposals patterns win_rates confidence_scores = Ok proposals ∧
    Forall (λ p,
        ∃ data,
          (template_id p, data) ∈ patterns ∧
          status p = "pending" ∧
          changes p ≠ [] ∧
          changes_count (metrics p) = length (changes p) ∧
          total_projects_analyzed (metrics p) = total_projects data ∧
          Forall2 (λ c a,
              change_path c = a.1 ∧
              projects_count c = count a.2 ∧
              (change_type c = "directory" ∨ change_type c = "file"))
            (changes p)
            (filter (λ a, Qle_bool ADOPTION_THRESHOLD (adoption_rate a.2) = true)
               (pat_additions data)))
      proposals.
Proof.
  eexists. split; [apply generate_proposals_spec|]. cbn zeta.
  apply Forall_forall. intros p Hin.
  apply zip_with_proposal_of_elem in Hin as (i & [t data] & Hitem & ->).
  apply list_elem_of_filter in Hitem as [Hq Hin]. simpl.
  exists data. split_and!; try done.
  - intros Hnil. apply qualifying_changes_nil in Hnil.
    unfold qualifies in Hq. simpl in Hq. rewrite Hnil in Hq.
    by rewrite andb_false_r in Hq.
  - rewrite qualifying_changes_filter. apply Forall2_fmap_l.
    apply Forall_Forall2_diag, Forall_forall. intros [path stats] _. simpl.
    split_and!; [done | done |].
    destruct (String.eqb (Path_suffix path) ""); [by left | by right].
Qed.

(** X8: a run emits at most one proposal per template and never more
    proposals than there are templates in the modification profile. *)
Theorem at_most_one_proposal_per_template evs win_rates confidence_scores :
  ∃ proposals,
    generate_proposals (aggregate_modifications evs) win_rates confidence_scores
      = Ok proposals ∧
    NoDup (template_id <$> proposals) ∧
    length proposals ≤ length (aggregate_modifications evs).
Proof.
  eexists. split; [apply generate_proposals_spec|]. cbn zeta.
  rewrite zip_with_proposal_of_template_id, zip_with_proposal_of_length.
  split; [|apply length_filter].
  assert (NoDup (aggregate_modifications evs).*1) as Hnd.
  { rewrite aggregate_modifications_fmap, <- list_fmap_compose.
    rewrite (list_fmap_ext _ fst (group_modifications evs)) by done.
    apply group_modifications_wf. }
  eapply sublist_NoDup; [exact Hnd|].
  apply fmap_sublist, sublist_filter.
Qed.

(** X9: a template for which the outcome log holds no record, or the
    confidence source no entry, is never proposed, whatever its adoption
    rates: the neutral win rate 0.5 and the default confidence 0.0 are both
    below their thresholds. *)
Theorem templates_without_evidence_are_never_proposed evs outcomes scores t :
  (∀ o, o ∈ outcomes → out_template_id o ≠ Some t)
  ∨ (∀ s, s ∈ scores → conf_template_id s ≠ Some t) →
  ∃ proposals,
    generate_proposals (aggregate_modifications evs)
      (load_template_outcomes outcomes) (load_confidence_scores scores)
      = Ok proposals ∧
    t ∉ template_id <$> proposals.
Proof.
  intros Habs. eexists. split; [apply generate_proposals_spec|]. cbn zeta.
  rewrite zip_with_proposal_of_template_id. intros Hin.
  apply list_elem_of_fmap in Hin as ([t' data] & -> & Hitem).
  apply list_elem_of_filter in Hitem as [Hq _].
  apply qualifies_true in Hq as (Hw & Hc & _). simpl in *.
  destruct Habs as [Habs|Habs].
  - unfold template_win_rate, dict_get_default in Hw.
    rewrite load_template_outcomes_absent in Hw by done.
    by vm_compute in Hw.
  - unfold template_confidence, dict_get_default in Hc.
    rewrite load_confidence_scores_absent in Hc by done.
    by vm_compute in Hc.
Qed.

Lemma templates_without_evidence_are_never_proposed_witness :
  ∃ proposals,
    generate_proposals (aggregate_modifications C3_events)
      (load_template_outcomes []) (load_confidence_scores sample_scores)
      = Ok proposals ∧
    "T1" ∉ template_id <$> proposals.
Proof.
  apply templates_without_evidence_are_never_proposed.
  left. intros o Hin. by apply elem_of_nil in Hin.
Defined.

(** ** How a run ends *)

(** X10: when the confidence source exists but cannot be decoded, nothing
    is written and the exit status is 1; otherwise the proposals are written
    to the output file, and the exit status is 0 exactly when there is no
    proposal: with at least one proposal the summary loop raises [KeyError]
    on the key ['changes_count'] after the file has been written, and the
    exit status is 1. *)
Theorem run_outcome loads_modification loads_outcome load_confidence fs :
  (load_json load_confidence (CONFIDENCE_SCORES fs) = Raise JSONDecodeError →
   main loads_modification loads_outcome load_confidence fs
     = (None, Raise JSONDecodeError) ∧
   exit_status loads_modification loads_outcome load_confidence fs = 1%Z)
  ∧ ∀ scores,
      load_json load_confidence (CONFIDENCE_SCORES fs) = Ok scores →
      ∃ proposals,
        generate_proposals
          (aggregate_modifications
             (load_jsonl loads_modification (MODIFICATIONS_LOG fs)))
          (load_template_outcomes (load_jsonl loads_outcome (OUTCOMES_LOG fs)))
          (load_confidence_scores scores) = Ok proposals ∧
        (main loads_modification loads_outcome load_confidence fs).1
          = Some proposals ∧
        (proposals = [] →
           (main loads_modification loads_outcome load_confidence fs).2 = Ok () ∧
           exit_status loads_modification loads_outcome load_confidence fs = 0%Z) ∧
        (proposals ≠ [] →
           (main loads_modification loads_outcome load_confidence fs).2
             = Raise (KeyError "changes_count") ∧
           exit_status loads_modification loads_outcome load_confidence fs = 1%Z).
Proof.
  split.
  - intros Hc. unfold exit_status, main. by rewrite Hc.
  - intros scores Hc.
    destruct (generate_proposals
                (aggregate_modifications
                   (load_jsonl loads_modification (MODIFICATIONS_LOG fs)))
                (load_template_outcomes (load_jsonl loads_outcome (OUTCOMES_LOG fs)))
                (load_confidence_scores scores)) as [proposals|e] eqn:Hgen.
    + exists proposals. unfold exit_status, main. rewrite Hc, Hgen.
      split; [done|]. destruct proposals as [|p proposals]; simpl.
      * split_and!; done.
      * split_and!; done.
    + rewrite generate_proposals_spec in Hgen. discriminate Hgen.
Qed.

Lemma run_outcome_witness :
  exit_status sample_loads sample_loads_outcome sample_load_confidence
    qualifying_run = 1%Z
  ∧ template_id <$>
      default [] (main sample_loads sample_loads_outcome sample_load_confidence
                    qualifying_run).1 = ["T1"].
Proof.
  destruct (run_outcome sample_loads sample_loads_outcome sample_load_confidence
              qualifying_run) as [_ Hrun].
  destruct (Hrun sample_scores eq_refl) as (proposals & Hgen & Hout & _ & Hne).
  vm_compute in Hgen. injection Hgen as <-.
  split; [by apply Hne | by rewrite Hout].
Defined.

(** ** Loading a log *)

Lemma length_omap_le {A B} (f : A → option B) (l : list A) :
  length (omap f l) ≤ length l.
Proof.
  induction l as [|a l IH]; csimpl; [done|]. destruct (f a); csimpl; lia.
Qed.

Lemma omap_line_record {A} (f : string → option A) (lines : list string) :
  omap (line_record f) lines = omap f (filter (λ l, is_blank l = false) lines).
Proof.
  induction lines as [|l lines IH]; [done|].
  rewrite filter_cons. csimpl. unfold line_record at 1.
  destruct (is_blank l) eqn:Hb.
  - by rewrite decide_False by done.
  - rewrite decide_True by done. csimpl. by rewrite IH.
Qed.

Lemma omap_agree {A B} (f g : A → option B) (l : list A) :
  Forall (λ a, f a = g a) l → omap f l = omap g l.
Proof.
  induction 1 as [|a l Ha _ IH]; csimpl; [done|]. by rewrite Ha, IH.
Qed.

(** X11: the records of a log are the decoded non-blank lines that
    [json.loads] accepts, in the order of the file; blank lines are skipped
    without being handed to the decoder, so the result does not depend on
    what the decoder would do with them, and there are never more records
    than lines. *)
Theorem load_jsonl_decodes_non_blank_lines {A} (json_loads : string → option A)
    (lines : list string) :
  load_jsonl json_loads (Some lines) =
    omap json_loads (filter (λ l, is_blank l = false) lines)
  ∧ length (load_jsonl json_loads (Some lines)) ≤ length lines
  ∧ ∀ decoder : string → option A,
      (∀ l, is_blank l = false → decoder l = json_loads l) →
      load_jsonl decoder (Some lines) = load_jsonl json_loads (Some lines).
Proof.
  split_and!.
  - by rewrite load_jsonl_omap, omap_line_record.
  - rewrite load_jsonl_omap. apply length_omap_le.
  - intros decoder Hsame. rewrite !load_jsonl_omap, !omap_line_record.
    apply omap_agree, Forall_forall. intros l Hl.
    apply list_elem_of_filter in Hl as [Hb _]. by apply Hsame.
Qed.

Lemma load_jsonl_decodes_non_blank_lines_witness :
  load_jsonl (λ _, Some 0) (Some ["a"; "  "; nbsp_line; ""; "b"]) = [0; 0].
Proof.
  destruct (load_jsonl_decodes_non_blank_lines
              (λ l, if is_blank l then None else Some 0)
              ["a"; "  "; nbsp_line; ""; "b"])
    as (Hchar & _ & Hdec).
  rewrite (Hdec (λ _, Some 0)).
  - rewrite Hchar. reflexivity.
  - intros l Hb. by rewrite Hb.
Defined.

(** ** Classifying a path *)

Lemma rfind_dot_None name : contains "." name = false → rfind_dot name = None.
Proof.
  induction name as [|c name IH]; simpl; [done|].
  intros [Hc Hn]%orb_false_elim. by rewrite IH, Hc.
Qed.

Lemma split_on_contains c sep s :
  contains c s = false → Forall (λ w, contains c w = false) (split_on sep s).
Proof.
  induction s as [|c' s IH]; simpl.
  - intros _. by repeat constructor.
  - intros [Hc Hs]%orb_false_elim. specialize (IH Hs).
    destruct (Ascii.eqb c' sep).
    + by constructor.
    + destruct (split_on sep s) as [|w ws].
      * repeat constructor. simpl. by rewrite Hc.
      * inversion IH as [|?? Hw Hws]; subst. constructor; [|done].
        simpl. by rewrite Hc, Hw.
Qed.

Lemma last_default_or_In {A} (l : list A) d :
  List.last l d = d ∨ In (List.last l d) l.
Proof.
  induction l as [|a l IH]; [by left|].
  destruct l as [|b l]; [right; by left|].
  change (List.last (a :: b :: l) d) with (List.last (b :: l) d).
  destruct IH as [IH|IH]; [by left | right; by right].
Qed.

Lemma path_name_contains c path :
  contains c path = false → contains c (path_name path) = false.
Proof.
  intros Hc. unfold path_name.
  destruct (last_default_or_In
              (List.filter (λ w, negb (String.eqb w "") && negb (String.eqb w "."))
                 (split_on "/" path)) "") as [->|Hin]; [done|].
  apply filter_In in Hin as [Hin _].
  pose proof (split_on_contains c "/" path Hc) as Hall.
  rewrite Forall_forall in Hall. by apply Hall, list_elem_of_In.
Qed.

(** X12: a path that contains no dot is classified as a directory, and so
    is a single-component name whose only dot is its first character (a
    hidden file such as ".gitignore"): only a dot inside the last component
    makes a change a file. *)
Theorem paths_without_extension_are_directories :
  (∀ path stats,
     contains "." path = false →
     change_type (make_change path stats) = "directory")
  ∧ (∀ rest stats,
       contains "." rest = false → contains "/" rest = false →
       change_type (make_change (String "." rest) stats) = "directory").
Proof.
  split.
  - intros path stats Hc. unfold make_change, Path_suffix. simpl.
    by rewrite rfind_dot_None by (by apply path_name_contains).
  - intros rest stats Hd Hs. unfold make_change, Path_suffix. simpl.
    assert (path_name (String "." rest) = if String.eqb rest "" then "" else String "." rest)
      as ->.
    { unfold path_name. simpl. rewrite split_on_no_sep by done. simpl.
      destruct rest; done. }
    destruct (String.eqb rest ""); [done|].
    simpl. by rewrite rfind_dot_None.
Qed.

Lemma paths_without_extension_are_directories_witness :
  change_type (make_change "hooks/" {| count := 1; adoption_rate := 1%Q |})
    = "directory"
  ∧ change_type (make_change ".gitignore" {| count := 1; adoption_rate := 1%Q |})
    = "directory".
Proof.
  destruct paths_without_extension_are_directories as [Hnodot Hhidden].
  split; [by apply Hnodot | by apply Hhidden].
Defined.

(** ** Checks of the two library models *)

Example round4_rounds_the_double :
  (round4 (113 # 160) == 7063 # 10000)%Q ∧ (round4 (5 # 7) == 7143 # 10000)%Q
  ∧ (round4 (17 # 20) == 85 # 100)%Q.
Proof. split_and!; vm_compute; reflexivity. Qed.

Example unicode_whitespace_is_blank :
  is_blank nbsp_line = true ∧ is_blank "  " = true ∧ is_blank " x " = false.
Proof. split_and!; reflexivity. Qed.
